(** * ScalerChoice: composing the search space of the scaling step

    A shallow embedding of
    [autoPyTorch/pipeline/components/preprocessing/tabular_preprocessing/scaling/__init__.py].

    Python dictionaries whose iteration order is irrelevant to the code
    (dataset properties, search-space updates) are finite maps; the
    [OrderedDict] of components, whose key order becomes the order of the
    choices, is an association list.  Exceptions are values of an error
    monad, and the two attributes the method assigns on [self] live in an
    explicit state that every computation threads. *)

From Stdlib Require Import ZArith.
From stdpp Require Import base option list strings gmap fin_maps.

Local Open Scope string_scope.
Set Warnings "-register-all".

(** ** Python values and exceptions *)

(** The values a dataset-property bag can hold. *)
Inductive PyValue :=
| PyNone
| PyBool (b : bool)
| PyInt (z : Z)
| PyStr (s : string)
| PyList (l : list PyValue)
| PyTuple (l : list PyValue).

(** [isinstance(v, List)] together with the conditional expression of
    lines 87-88: the list itself, or the empty list for anything else. *)
Definition list_or_empty (v : PyValue) : list PyValue :=
  match v with
  | PyList l => l
  | _ => []
  end.

Definition is_list (v : PyValue) : bool :=
  match v with
  | PyList _ => true
  | _ => false
  end.

(** The messages of the [ValueError]s, with the values their format
    strings are filled with. *)
Inductive ValueErrorMessage :=
| NoScalersFound
    (* "no scalers found, please add a scaler" *)
| UpdateChoicesNotAvailable (cls : string) (available value_range : list string)
    (* "Expected given update for {} to have choices in {} got {}" *)
| ChoicesIncompatible (value_range : list string)
    (* "Provided {} in choices, however, the dataset is incompatible with it" *)
| IncludeIncompatible (include : list string)
    (* "Provided {} in include, however, the dataset is incompatible with it" *)
| IllegalDefault (default_value : string)
    (* ConfigSpace: "Illegal default value {}" *)
| RepeatedChoice (name choice : string)
    (* ConfigSpace: "Choices for categorical hyperparameters {} contain choice
       {} ... times" *)
| UnknownInclude (name : string)
    (* raised by the applicability filter for an included name it cannot offer *).

Inductive Exception :=
| ValueError (msg : ValueErrorMessage)
| AssertionError (msg : option string)
| KeyError (key : string)
| IndexError.

Inductive result (A : Type) :=
| Ok (a : A)
| Raise (e : Exception).
Arguments Ok {A} a.
Arguments Raise {A} e.

(** ** Ordered dictionaries *)

Module OrderedDict.

Definition t (V : Type) := list (string * V).

Definition keys {V} (d : t V) : list string := d.*1.

Fixpoint get {V} (d : t V) (k : string) : option V :=
  match d with
  | [] => None
  | (k', v) :: d' => if decide (k' = k) then Some v else get d' k
  end.

(** [k in d] *)
Definition mem {V} (k : string) (d : t V) : bool := bool_decide (k ∈ keys d).

(** [d[k] = v]: an existing key keeps its position. *)
Fixpoint set {V} (d : t V) (k : string) (v : V) : t V :=
  match d with
  | [] => [(k, v)]
  | (k', v') :: d' =>
      if decide (k' = k) then (k, v) :: d' else (k', v') :: set d' k v
  end.

(** [d.update(other)] *)
Definition update {V} (d other : t V) : t V :=
  fold_left (fun acc kv => set acc kv.1 kv.2) other d.

End OrderedDict.

(** ** The ConfigSpace library

    ConfigSpace is an external dependency.  Its objects are modelled by the
    data the method hands to them, and the categorical constructor by the
    checks it runs on its arguments. *)

Inductive Hyperparameter :=
| Categorical (name : string) (choices : list string) (default_value : string)
| UniformInteger (name : string) (lower upper default_value : Z).

Definition hp_name (h : Hyperparameter) : string :=
  match h with
  | Categorical n _ _ => n
  | UniformInteger n _ _ _ => n
  end.

(** [preprocessor.choices] *)
Definition hp_choices (h : Hyperparameter) : list string :=
  match h with
  | Categorical _ c _ => c
  | UniformInteger _ _ _ _ => []
  end.

Inductive ConfigurationSpace :=
| mkConfigurationSpace
    (hyperparameters : list Hyperparameter)
    (children : list (string * ConfigurationSpace * (Hyperparameter * string))).

Definition hyperparameters (cs : ConfigurationSpace) : list Hyperparameter :=
  match cs with mkConfigurationSpace h _ => h end.

Definition children (cs : ConfigurationSpace)
  : list (string * ConfigurationSpace * (Hyperparameter * string)) :=
  match cs with mkConfigurationSpace _ c => c end.

(** [ConfigurationSpace()] *)
Definition empty_space : ConfigurationSpace := mkConfigurationSpace [] [].

(** [cs.add_hyperparameter(hp)] *)
Definition add_hyperparameter (cs : ConfigurationSpace) (hp : Hyperparameter)
  : ConfigurationSpace :=
  mkConfigurationSpace (hyperparameters cs ++ [hp]) (children cs).

(** [cs.add_configuration_space(prefix, sub, parent_hyperparameter=
    {'parent': parent, 'value': value})]: the sub-space is grafted under the
    condition [parent == value]; grafts are kept in the order of the calls. *)
Definition add_configuration_space (cs : ConfigurationSpace) (prefix : string)
    (sub : ConfigurationSpace) (parent : Hyperparameter) (value : string)
  : ConfigurationSpace :=
  mkConfigurationSpace (hyperparameters cs)
                       (children cs ++ [(prefix, sub, (parent, value))]).

(** [cs.get_hyperparameter(name)] *)
Definition get_hyperparameter (cs : ConfigurationSpace) (name : string)
  : option Hyperparameter :=
  List.find (fun h => bool_decide (hp_name h = name)) (hyperparameters cs).

Fixpoint first_repeated (l : list string) : option string :=
  match l with
  | [] => None
  | x :: l' => if bool_decide (x ∈ l') then Some x else first_repeated l'
  end.

(** [CSH.CategoricalHyperparameter(name, choices, default_value=d)]: a
    choice listed twice is rejected; a missing default becomes the first
    choice; a default outside the choices is rejected. *)
Definition CategoricalHyperparameter (name : string) (choices : list string)
    (default_value : option string) : result Hyperparameter :=
  match first_repeated choices with
  | Some c => Raise (ValueError (RepeatedChoice name c))
  | None =>
      match default_value with
      | None =>
          match choices with
          | [] => Raise IndexError
          | c :: _ => Ok (Categorical name choices c)
          end
      | Some d =>
          if bool_decide (d ∈ choices) then Ok (Categorical name choices d)
          else Raise (ValueError (IllegalDefault d))
      end
  end.

(** ** Components, updates and the state of the interpreter *)

(** [HyperparameterSearchSpace]: what a search-space update carries. *)
Record HyperparameterSearchSpace := {
  value_range : list string;
  default_value : string
}.

(** A scaler class as the choice sees it: its own search-space constructor
    (called with the dataset properties and the updates addressed to it) and
    the applicability predicate of its capability contract. *)
Record Component := {
  component_search_space :
    gmap string PyValue -> gmap string HyperparameterSearchSpace ->
    result ConfigurationSpace;
  is_applicable : gmap string PyValue -> bool
}.

(** The two module-level registries: [_scalers] (found at import time) and
    [_addons.components] (third-party additions). *)
Record Registry := {
  _scalers : OrderedDict.t Component;
  _addons : OrderedDict.t Component
}.

(** The attributes of a [ScalerChoice] instance. *)
Module Self.
Record t := {
  dataset_properties : gmap string PyValue;
  configuration_space : option ConfigurationSpace;
  search_space_updates : gmap string HyperparameterSearchSpace
}.
End Self.

Record World := {
  registry : Registry;
  self : Self.t
}.

(** Computations: read and write the world, or raise. *)
Definition M (A : Type) : Type := World -> result A * World.

Definition run {A} (m : M A) (w : World) : result A * World := m w.

#[export] Instance M_ret : MRet M := fun A a w => (Ok a, w).
#[export] Instance M_bind : MBind M := fun A B f m w =>
  match m w with
  | (Ok a, w') => f a w'
  | (Raise e, w') => (Raise e, w')
  end.

Definition raise {A} (e : Exception) : M A := fun w => (Raise e, w).

Definition lift {A} (r : result A) : M A := fun w => (r, w).

Definition get_world : M World := fun w => (Ok w, w).

(** [self.configuration_space = cs] *)
Definition set_configuration_space (cs : ConfigurationSpace) : M unit :=
  fun w => (Ok tt,
            {| registry := registry w;
               self := {| Self.dataset_properties := Self.dataset_properties (self w);
                          Self.configuration_space := Some cs;
                          Self.search_space_updates := Self.search_space_updates (self w) |} |}).

(** [self.dataset_properties = dataset_properties] *)
Definition set_dataset_properties (dp : gmap string PyValue) : M unit :=
  fun w => (Ok tt,
            {| registry := registry w;
               self := {| Self.dataset_properties := dp;
                          Self.configuration_space := Self.configuration_space (self w);
                          Self.search_space_updates := Self.search_space_updates (self w) |} |}).

(** ** The inherited interface

    [ScalerChoice] extends [autoPyTorchChoice], whose methods are defined in
    another module.  The methods the scaling module calls are the members of
    this class; they read their arguments and mutate nothing. *)
Class autoPyTorchChoice := {
  (** [self.get_available_components(dataset_properties, include, exclude)],
      applied to what [self.get_components()] returns. *)
  get_available_components :
    OrderedDict.t Component -> gmap string PyValue ->
    option (list string) -> option (list string) ->
    result (OrderedDict.t Component);
  (** [self._get_search_space_updates(prefix=...)] *)
  _get_search_space_updates :
    Self.t -> option string -> gmap string HyperparameterSearchSpace;
  (** [super()._check_dataset_properties(dataset_properties)] *)
  super_check_dataset_properties : gmap string PyValue -> result unit
}.

(** ** The scaling module *)

(** [d[k]] on a plain dictionary *)
Definition getitem {V} (d : gmap string V) (k : string) : result V :=
  match d !! k with
  | Some v => Ok v
  | None => Raise (KeyError k)
  end.

(** [d[k]] on an ordered dictionary *)
Definition od_getitem {V} (d : OrderedDict.t V) (k : string) : result V :=
  match OrderedDict.get d k with
  | Some v => Ok v
  | None => Raise (KeyError k)
  end.

Definition get_self : M Self.t := fun w => (Ok (self w), w).

(** The list of lines 69-77. *)
Definition defaults : list string :=
  [ "StandardScaler"; "Normalizer"; "MinMaxScaler"; "PowerTransformer";
    "QuantileTransformer"; "RobustScaler"; "NoScaler" ].

(** The loop of lines 78-85 over a list of candidates; [None] when the loop
    ends without assigning [default]. *)
Fixpoint scan_defaults (candidates : list string)
    (available_scalers : OrderedDict.t Component)
    (include exclude : option (list string)) : option string :=
  match candidates with
  | [] => None
  | default_ :: rest =>
      if OrderedDict.mem default_ available_scalers then
        if match include with
           | Some inc => negb (bool_decide (default_ ∈ inc))
           | None => false
           end
        then scan_defaults rest available_scalers include exclude
        else if match exclude with
                | Some exc => bool_decide (default_ ∈ exc)
                | None => false
                end
        then scan_defaults rest available_scalers include exclude
        else Some default_
      else scan_defaults rest available_scalers include exclude
  end.

Section ScalerChoice.
Context `{autoPyTorchChoice}.

(** [ScalerChoice.get_components] *)
Definition get_components : M (OrderedDict.t Component) :=
  w ← get_world;
  let components := [] in
  let components := OrderedDict.update components (_scalers (registry w)) in
  let components := OrderedDict.update components (_addons (registry w)) in
  mret components.

(** The loop of lines 123-129. *)
Fixpoint add_children (names : list string) (preprocessor : Hyperparameter)
    (available_scalers : OrderedDict.t Component)
    (dataset_properties : gmap string PyValue)
    (cs : ConfigurationSpace) : M ConfigurationSpace :=
  match names with
  | [] => mret cs
  | name :: rest =>
      s ← get_self;
      let updates := _get_search_space_updates s (Some name) in
      component ← lift (od_getitem available_scalers name);
      config_space ←
        lift (component_search_space component dataset_properties updates);
      let cs := add_configuration_space cs name config_space preprocessor name in
      add_children rest preprocessor available_scalers dataset_properties cs
  end.

(** [ScalerChoice.get_hyperparameter_search_space] *)
Definition get_hyperparameter_search_space
    (dataset_properties : option (gmap string PyValue))
    (default : option string)
    (include exclude : option (list string)) : M ConfigurationSpace :=
  let cs := empty_space in
  let dataset_properties := from_option id ∅ dataset_properties in
  s ← get_self;
  let dataset_properties := dataset_properties ∪ Self.dataset_properties s in
  components ← get_components;
  available_scalers ←
    lift (get_available_components components dataset_properties include exclude);
  if bool_decide (length available_scalers = 0)
  then raise (ValueError NoScalersFound)
  else
    let default :=
      match default with
      | None => scan_defaults defaults available_scalers include exclude
      | Some d => Some d
      end in
    v ← lift (getitem dataset_properties "numerical_columns");
    let numerical_columns := list_or_empty v in
    s ← get_self;
    let updates := _get_search_space_updates s None in
    preprocessor ←
      match updates !! "__choice__" with
      | Some choice_hyperparameter =>
          if negb (forallb (fun c => OrderedDict.mem c available_scalers)
                           (value_range choice_hyperparameter))
          then raise (ValueError (UpdateChoicesNotAvailable
                                    "ScalerChoice"
                                    (OrderedDict.keys available_scalers)
                                    (value_range choice_hyperparameter)))
          else
            (if bool_decide (length numerical_columns = 0) then
               if negb (bool_decide (length (value_range choice_hyperparameter) = 1))
               then raise (AssertionError None)
               else if negb (bool_decide ("NoScaler" ∈ value_range choice_hyperparameter))
               then raise (ValueError (ChoicesIncompatible
                                         (value_range choice_hyperparameter)))
               else mret tt
             else mret tt);;
            lift (CategoricalHyperparameter "__choice__"
                    (value_range choice_hyperparameter)
                    (Some (default_value choice_hyperparameter)))
      | None =>
          if bool_decide (length numerical_columns = 0) then
            let default := "NoScaler" in
            match include with
            | Some inc =>
                if negb (bool_decide (default ∈ inc))
                then raise (ValueError (IncludeIncompatible inc))
                else mret tt
            | None => mret tt
            end;;
            lift (CategoricalHyperparameter "__choice__" ["NoScaler"]
                    (Some default))
          else
            lift (CategoricalHyperparameter "__choice__"
                    (OrderedDict.keys available_scalers) default)
      end;
    let cs := add_hyperparameter cs preprocessor in
    cs ← add_children (hp_choices preprocessor) preprocessor available_scalers
           dataset_properties cs;
    set_configuration_space cs;;
    set_dataset_properties dataset_properties;;
    mret cs.

(** [ScalerChoice._check_dataset_properties] *)
Definition _check_dataset_properties (dataset_properties : gmap string PyValue)
  : M unit :=
  lift (super_check_dataset_properties dataset_properties);;
  if bool_decide (is_Some (dataset_properties !! "numerical_columns"))
     && bool_decide (is_Some (dataset_properties !! "categorical_columns"))
  then mret tt
  else raise (AssertionError
                (Some "Dataset properties must contain information about the type of columns")).

(** *** The stages of one call, as functions of what the call reads

    These definitions name the values the method computes on its way;
    [get_hyperparameter_search_space_run] below shows that the method is
    their composition. *)

(** What [get_components] returns for a registry. *)
Definition components_of (r : Registry) : OrderedDict.t Component :=
  OrderedDict.update (OrderedDict.update [] (_scalers r)) (_addons r).

(** The bag the call works on (line 59). *)
Definition effective_properties (w : World)
    (dataset_properties : option (gmap string PyValue)) : gmap string PyValue :=
  from_option id ∅ dataset_properties ∪ Self.dataset_properties (self w).

(** The available scalers of the call (lines 61-63). *)
Definition available (w : World) (dataset_properties : option (gmap string PyValue))
    (include exclude : option (list string)) : result (OrderedDict.t Component) :=
  get_available_components (components_of (registry w))
    (effective_properties w dataset_properties) include exclude.

(** The update addressed to the top-level choice, if any (lines 89-91). *)
Definition choice_update (w : World) : option HyperparameterSearchSpace :=
  _get_search_space_updates (self w) None !! "__choice__".

(** [default] after lines 68-85. *)
Definition resolve_default (default : option string)
    (available_scalers : OrderedDict.t Component)
    (include exclude : option (list string)) : option string :=
  match default with
  | None => scan_defaults defaults available_scalers include exclude
  | Some d => Some d
  end.

(** [preprocessor] after lines 90-119. *)
Definition choice_parameter (available_scalers : OrderedDict.t Component)
    (numerical_columns : list PyValue)
    (update : option HyperparameterSearchSpace)
    (default : option string) (include : option (list string))
  : result Hyperparameter :=
  match update with
  | Some ch =>
      if negb (forallb (fun c => OrderedDict.mem c available_scalers) (value_range ch))
      then Raise (ValueError (UpdateChoicesNotAvailable "ScalerChoice"
                                (OrderedDict.keys available_scalers) (value_range ch)))
      else if bool_decide (length numerical_columns = 0)
              && negb (bool_decide (length (value_range ch) = 1))
      then Raise (AssertionError None)
      else if bool_decide (length numerical_columns = 0)
              && negb (bool_decide ("NoScaler" ∈ value_range ch))
      then Raise (ValueError (ChoicesIncompatible (value_range ch)))
      else CategoricalHyperparameter "__choice__" (value_range ch)
             (Some (default_value ch))
  | None =>
      if bool_decide (length numerical_columns = 0) then
        match include with
        | Some inc =>
            if bool_decide ("NoScaler" ∈ inc)
            then CategoricalHyperparameter "__choice__" ["NoScaler"] (Some "NoScaler")
            else Raise (ValueError (IncludeIncompatible inc))
        | None => CategoricalHyperparameter "__choice__" ["NoScaler"] (Some "NoScaler")
        end
      else CategoricalHyperparameter "__choice__"
             (OrderedDict.keys available_scalers) default
  end.

(** [cs] after the loop of lines 123-129. *)
Fixpoint graft (s : Self.t) (names : list string) (preprocessor : Hyperparameter)
    (available_scalers : OrderedDict.t Component)
    (dataset_properties : gmap string PyValue)
    (cs : ConfigurationSpace) : result ConfigurationSpace :=
  match names with
  | [] => Ok cs
  | name :: rest =>
      match od_getitem available_scalers name with
      | Raise e => Raise e
      | Ok component =>
          match component_search_space component dataset_properties
                  (_get_search_space_updates s (Some name)) with
          | Raise e => Raise e
          | Ok config_space =>
              graft s rest preprocessor available_scalers dataset_properties
                (add_configuration_space cs name config_space preprocessor name)
          end
      end
  end.

(** The world after lines 131-132. *)
Definition cached (w : World) (cs : ConfigurationSpace)
    (dataset_properties : gmap string PyValue) : World :=
  {| registry := registry w;
     self := {| Self.dataset_properties := dataset_properties;
                Self.configuration_space := Some cs;
                Self.search_space_updates := Self.search_space_updates (self w) |} |}.

(** The outcome of one call, stage by stage. *)
Definition outcome (w : World) (dataset_properties : option (gmap string PyValue))
    (default : option string) (include exclude : option (list string))
  : result ConfigurationSpace * World :=
  let props := effective_properties w dataset_properties in
  match available w dataset_properties include exclude with
  | Raise e => (Raise e, w)
  | Ok available_scalers =>
      if bool_decide (length available_scalers = 0)
      then (Raise (ValueError NoScalersFound), w)
      else
        match props !! "numerical_columns" with
        | None => (Raise (KeyError "numerical_columns"), w)
        | Some v =>
            match choice_parameter available_scalers (list_or_empty v)
                    (choice_update w)
                    (resolve_default default available_scalers include exclude)
                    include with
            | Raise e => (Raise e, w)
            | Ok preprocessor =>
                match graft (self w) (hp_choices preprocessor) preprocessor
                        available_scalers props
                        (add_hyperparameter empty_space preprocessor) with
                | Raise e => (Raise e, w)
                | Ok cs => (Ok cs, cached w cs props)
                end
            end
        end
  end.

End ScalerChoice.

(** ** A concrete parent class

    The base class lives in [autoPyTorch/pipeline/components/base_choice.py].
    The instance below is used to run the method on concrete inputs. *)

(** Modelled from the spec: [autoPyTorchChoice.get_available_components]
    (base_choice.py) is missing from the sources at hand.  Section 4.2: a
    non-empty [include] restricts the result to that name set, and a name in
    [include] that is not registered or not applicable is an error;
    [exclude] removes its names unconditionally; the remaining variants whose
    applicability predicate fails are dropped silently.  The result keeps
    the order of the registry. *)
Definition spec_get_available_components (components : OrderedDict.t Component)
    (dataset_properties : gmap string PyValue)
    (include exclude : option (list string)) : result (OrderedDict.t Component) :=
  let offered (n : string) : bool :=
    match OrderedDict.get components n with
    | Some c => is_applicable c dataset_properties
    | None => false
    end in
  let included (n : string) : bool :=
    match include with
    | Some (i :: inc) => bool_decide (n ∈ i :: inc)
    | _ => true
    end in
  let excluded (n : string) : bool :=
    match exclude with
    | Some exc => bool_decide (n ∈ exc)
    | None => false
    end in
  match List.find (fun n => negb (offered n)) (from_option id [] include) with
  | Some n => Raise (ValueError (UnknownInclude n))
  | None =>
      Ok (List.filter
            (fun kv => included kv.1 && negb (excluded kv.1)
                       && is_applicable kv.2 dataset_properties)
            components)
  end.

(** Modelled from the spec: [autoPyTorchChoice._get_search_space_updates]
    (base_choice.py) is missing from the sources at hand.  Sections 3 and
    4.4: the updates are keyed by path; without a prefix all of them are
    returned as they are keyed; with a variant name as prefix, only the
    updates addressed to that variant are forwarded, keyed by the rest of
    their path. *)
Definition spec_get_search_space_updates (s : Self.t) (prefix : option string)
  : gmap string HyperparameterSearchSpace :=
  match prefix with
  | None => Self.search_space_updates s
  | Some p =>
      let sep := (p ++ ".")%string in
      list_to_map
        (omap (fun kv : string * HyperparameterSearchSpace =>
                 if String.prefix sep kv.1
                 then Some (String.substring (String.length sep)
                              (String.length kv.1 - String.length sep) kv.1,
                            kv.2)
                 else None)
              (map_to_list (Self.search_space_updates s)))
  end.

(** Modelled from the spec: the parent's [_check_dataset_properties]
    (base_choice.py) is missing from the sources at hand; the spec states no
    requirement of the parent level beyond the two column keys checked by
    the scaling module itself, so the parent accepts every bag. *)
Definition spec_super_check_dataset_properties (dataset_properties : gmap string PyValue)
  : result unit := Ok tt.

Definition spec_choice : autoPyTorchChoice := {|
  get_available_components := spec_get_available_components;
  _get_search_space_updates := spec_get_search_space_updates;
  super_check_dataset_properties := spec_super_check_dataset_properties
|}.

(** ** Notions the properties are stated with *)

(** A name the preference scan may pick: it is available, it is in the
    include list when one is given, and it is not in the exclude list when
    one is given. *)
Definition eligible (available_scalers : OrderedDict.t Component)
    (include exclude : option (list string)) (name : string) : Prop :=
  name ∈ OrderedDict.keys available_scalers ∧
  (∀ inc, include = Some inc → name ∈ inc) ∧
  (∀ exc, exclude = Some exc → name ∉ exc).

(** The top-level choice restricted to the no-op scaler. *)
Definition NoScaler_only : Hyperparameter :=
  Categorical "__choice__" ["NoScaler"] "NoScaler".

(** A graft of the composed space as the loop of lines 123-129 builds it for
    [name]: the sub-space that the available scaler of that name constructs
    from the bag and the updates addressed to it, under the prefix [name] and
    the condition that the choice equals [name]. *)
Definition child_built_for `{autoPyTorchChoice} (s : Self.t)
    (available_scalers : OrderedDict.t Component)
    (dataset_properties : gmap string PyValue) (preprocessor : Hyperparameter)
    (name : string)
    (child : string * ConfigurationSpace * (Hyperparameter * string)) : Prop :=
  ∃ component,
    OrderedDict.get available_scalers name = Some component ∧
    component_search_space component dataset_properties
      (_get_search_space_updates s (Some name)) = Ok child.1.2 ∧
    child.1.1 = name ∧
    child.2 = (preprocessor, name).

(** ** Concrete inputs *)

(** A scaler with one tunable parameter. *)
Definition tuned_scaler : Component := {|
  component_search_space := fun _ _ =>
    Ok (mkConfigurationSpace [UniformInteger "n_quantiles" 10 2000 1000] []);
  is_applicable := fun _ => true
|}.


(** A scaler without tunable parameters that applies to every dataset. *)
Definition plain_scaler : Component := {|
  component_search_space := fun _ _ => Ok empty_space;
  is_applicable := fun _ => true
|}.

(** A third-party scaler registered under the name of a built-in one, and a
    new one. *)
Definition overriding_addons : Registry := {|
  _scalers := [("StandardScaler", plain_scaler); ("NoScaler", plain_scaler)];
  _addons := [("NoScaler", tuned_scaler); ("MyScaler", plain_scaler)]
|}.

Definition fresh_self : Self.t := {|
  Self.dataset_properties := ∅;
  Self.configuration_space := None;
  Self.search_space_updates := ∅
|}.

Definition self_with_choice_update (value_range : list string) (default_value : string)
  : Self.t := {|
  Self.dataset_properties := ∅;
  Self.configuration_space := None;
  Self.search_space_updates :=
    {[ "__choice__" := {| value_range := value_range; default_value := default_value |} ]}
|}.

(** The registry of scenarios 1 and 2. *)
Definition standard_and_no_scaler : Registry := {|
  _scalers := [("StandardScaler", plain_scaler); ("NoScaler", plain_scaler)];
  _addons := []
|}.

(** The seven scalers of the preference list, found at import time, and one
    third-party scaler added on top. *)
Definition builtin_and_my_scaler : Registry := {|
  _scalers := [("MinMaxScaler", plain_scaler); ("NoScaler", plain_scaler);
               ("Normalizer", plain_scaler); ("PowerTransformer", plain_scaler);
               ("QuantileTransformer", plain_scaler); ("RobustScaler", plain_scaler);
               ("StandardScaler", plain_scaler)];
  _addons := [("MyScaler", plain_scaler)]
|}.

Definition numerical_bag : gmap string PyValue :=
  {[ "numerical_columns" := PyList [PyStr "c1"]; "categorical_columns" := PyList [] ]}.

Definition categorical_bag : gmap string PyValue :=
  {[ "numerical_columns" := PyList []; "categorical_columns" := PyList [PyStr "c1"] ]}.

Definition only_numerical_key : gmap string PyValue :=
  {[ "numerical_columns" := PyList [PyStr "c1"] ]}.

Definition only_categorical_key : gmap string PyValue :=
  {[ "categorical_columns" := PyList [PyStr "c1"] ]}.

Definition text_for_columns : gmap string PyValue :=
  {[ "numerical_columns" := PyStr "c1"; "categorical_columns" := PyList [] ]}.

Definition world (r : Registry) (s : Self.t) : World :=
  {| registry := r; self := s |}.

(** The composed space of scenario 1. *)
Definition scenario1_space : ConfigurationSpace :=
  let choice := Categorical "__choice__" ["StandardScaler"; "NoScaler"] "StandardScaler" in
  mkConfigurationSpace [choice]
    [("StandardScaler", empty_space, (choice, "StandardScaler"));
     ("NoScaler", empty_space, (choice, "NoScaler"))].

(** The composed space of scenario 2. *)
Definition scenario2_space : ConfigurationSpace :=
  mkConfigurationSpace [NoScaler_only]
    [("NoScaler", empty_space, (NoScaler_only, "NoScaler"))].

(** The space composed when only the third-party scaler is included. *)
Definition my_scaler_space : ConfigurationSpace :=
  let choice := Categorical "__choice__" ["MyScaler"] "MyScaler" in
  mkConfigurationSpace [choice] [("MyScaler", empty_space, (choice, "MyScaler"))].

(** The space composed over [overriding_addons] for a numerical dataset. *)
Definition overriding_space : ConfigurationSpace :=
  let choice :=
    Categorical "__choice__" ["StandardScaler"; "NoScaler"; "MyScaler"] "StandardScaler" in
  mkConfigurationSpace [choice]
    [("StandardScaler", empty_space, (choice, "StandardScaler"));
     ("NoScaler", mkConfigurationSpace [UniformInteger "n_quantiles" 10 2000 1000] [],
      (choice, "NoScaler"));
     ("MyScaler", empty_space, (choice, "MyScaler"))].

(** An instance after a call that returned [cs] for the bag [props]. *)
Definition self_after (props : gmap string PyValue) (cs : ConfigurationSpace) : Self.t := {|
  Self.dataset_properties := props;
  Self.configuration_space := Some cs;
  Self.search_space_updates := ∅
|}.

(** The seven scalers found at import time, and no third-party scaler. *)
Definition builtin_only : Registry := {|
  _scalers := [("MinMaxScaler", plain_scaler); ("NoScaler", plain_scaler);
               ("Normalizer", plain_scaler); ("PowerTransformer", plain_scaler);
               ("QuantileTransformer", plain_scaler); ("RobustScaler", plain_scaler);
               ("StandardScaler", plain_scaler)];
  _addons := []
|}.

(** An instance that stores [props] and has not composed a space yet. *)
Definition self_storing (props : gmap string PyValue) : Self.t := {|
  Self.dataset_properties := props;
  Self.configuration_space := None;
  Self.search_space_updates := ∅
|}.

(** The space with the given choices and default, every choice grafting the
    empty sub-space of [plain_scaler]. *)
Definition plain_space (choices : list string) (default : string) : ConfigurationSpace :=
  let choice := Categorical "__choice__" choices default in
  mkConfigurationSpace [choice]
    (List.map (fun name => (name, empty_space, (choice, name))) choices).

(** The space composed over [builtin_only] for a numerical dataset. *)
Definition builtin_space : ConfigurationSpace :=
  plain_space (OrderedDict.keys (_scalers builtin_only)) "StandardScaler".

(** A call of the method on an instance whose parent class is
    [spec_choice]. *)
Definition call := @get_hyperparameter_search_space spec_choice.

(** ** The method is the composition of its stages *)

Section Stages.
Context `{autoPyTorchChoice}.

Lemma add_children_eq names preprocessor available_scalers props cs w :
  add_children names preprocessor available_scalers props cs w =
  match graft (self w) names preprocessor available_scalers props cs with
  | Ok cs' => (Ok cs', w)
  | Raise e => (Raise e, w)
  end.
Proof.
  revert cs. induction names as [|name rest IH]; intros cs; [done|].
  cbn [add_children graft]. unfold mbind, M_bind, get_self, lift in *.
  destruct (od_getitem available_scalers name) as [component|e]; [|done].
  destruct (component_search_space component props _) as [sub|e]; [|done].
  apply IH.
Qed.

Local Ltac finish_stage :=
  unfold resolve_default;
  destruct (CategoricalHyperparameter _ _ _) as [pre|e]; [|done];
  rewrite add_children_eq;
  destruct (graft _ _ _ _ _ _); done.

(** One call of the method computes exactly [outcome]. *)
Lemma get_hyperparameter_search_space_run w dataset_properties default include exclude :
  run (get_hyperparameter_search_space dataset_properties default include exclude) w =
  outcome w dataset_properties default include exclude.
Proof.
  unfold get_hyperparameter_search_space, outcome, available, get_components.
  unfold run, mbind, M_bind, mret, M_ret, get_self, get_world, lift.
  fold (components_of (registry w)).
  fold (effective_properties w dataset_properties).
  destruct (get_available_components _ _ _ _) as [av|e]; [|done].
  case_bool_decide; [done|].
  unfold getitem.
  destruct (effective_properties w dataset_properties !! "numerical_columns")
    as [v|]; [|done].
  fold (choice_update w).
  destruct (choice_update w) as [ch|]; cbn [choice_parameter].
  - destruct (forallb _ _); cbn [negb]; [|done].
    destruct (bool_decide (length (list_or_empty v) = 0)); cbn [andb].
    + destruct (bool_decide (length (value_range ch) = 1)); cbn [negb]; [|done].
      destruct (bool_decide ("NoScaler" ∈ value_range ch)); cbn [negb]; [|done].
      finish_stage.
    + finish_stage.
  - destruct (bool_decide (length (list_or_empty v) = 0)).
    + destruct include as [inc|];
        [destruct (bool_decide ("NoScaler" ∈ inc)); cbn [negb]; [|done]|];
        finish_stage.
    + finish_stage.
Qed.

End Stages.

(** ** Ordered dictionaries and the categorical constructor *)

Lemma mem_keys {V} (k : string) (d : OrderedDict.t V) :
  OrderedDict.mem k d = true ↔ k ∈ OrderedDict.keys d.
Proof. unfold OrderedDict.mem. apply bool_decide_eq_true. Qed.

Lemma get_Some_keys {V} (d : OrderedDict.t V) k v :
  OrderedDict.get d k = Some v → k ∈ OrderedDict.keys d.
Proof.
  induction d as [|[k' v'] d IH]; [done|]. cbn.
  case_decide as Hk.
  - intros _. subst. apply list_elem_of_here.
  - intros Hget. apply list_elem_of_further, IH, Hget.
Qed.

Lemma keys_get_is_Some {V} (d : OrderedDict.t V) k :
  k ∈ OrderedDict.keys d → is_Some (OrderedDict.get d k).
Proof.
  induction d as [|[k' v'] d IH]; cbn.
  - intros Hin. by apply elem_of_nil in Hin.
  - intros Hin. case_decide as Hk; [by eexists|].
    apply elem_of_cons in Hin as [->|Hin]; [done|]. by apply IH.
Qed.

Lemma subset_forallb {V} (l : list string) (d : OrderedDict.t V) :
  forallb (fun c => OrderedDict.mem c d) l = true ↔ l ⊆ OrderedDict.keys d.
Proof.
  rewrite forallb_forall. split.
  - intros Hall x Hx. apply mem_keys, Hall, list_elem_of_In, Hx.
  - intros Hsub x Hx. apply mem_keys, Hsub, list_elem_of_In, Hx.
Qed.

Lemma first_repeated_NoDup (l : list string) :
  first_repeated l = None ↔ NoDup l.
Proof.
  induction l as [|x l IH]; cbn.
  - split; [intros _; constructor|done].
  - case_bool_decide as Hx.
    + split; [done|]. intros Hnd. by apply NoDup_cons in Hnd as [? _].
    + rewrite IH. split.
      * intros Hnd. by apply NoDup_cons.
      * intros Hnd. by apply NoDup_cons in Hnd as [_ ?].
Qed.

(** A categorical that was built has the given name and choices, and its
    default is one of its choices. *)
Lemma CategoricalHyperparameter_Ok name choices d h :
  CategoricalHyperparameter name choices d = Ok h →
  ∃ d', h = Categorical name choices d' ∧ d' ∈ choices ∧ NoDup choices
        ∧ match d with Some x => d' = x | None => head choices = Some d' end.
Proof.
  unfold CategoricalHyperparameter.
  destruct (first_repeated choices) eqn:Hrep; [done|].
  apply first_repeated_NoDup in Hrep.
  destruct d as [x|].
  - case_bool_decide as Hx; [|done]. intros [= <-]. by exists x.
  - destruct choices as [|c choices]; [done|]. intros [= <-].
    exists c. repeat split; [apply list_elem_of_here|done].
Qed.

Lemma CategoricalHyperparameter_default_outside name choices d :
  d ∉ choices →
  CategoricalHyperparameter name choices (Some d) =
  Raise (match first_repeated choices with
         | Some c => ValueError (RepeatedChoice name c)
         | None => ValueError (IllegalDefault d)
         end).
Proof.
  intros Hd. unfold CategoricalHyperparameter.
  destruct (first_repeated choices); [done|].
  by rewrite bool_decide_eq_false_2.
Qed.

Lemma CategoricalHyperparameter_build name choices d :
  NoDup choices → d ∈ choices →
  CategoricalHyperparameter name choices (Some d) = Ok (Categorical name choices d).
Proof.
  intros Hnd Hd. unfold CategoricalHyperparameter.
  apply first_repeated_NoDup in Hnd. rewrite Hnd.
  by rewrite bool_decide_eq_true_2.
Qed.

(** ** The grafting loop and the outcome of a call *)

Section Outcome.
Context `{autoPyTorchChoice}.

Lemma graft_hyperparameters s names pre av props cs cs' :
  graft s names pre av props cs = Ok cs' →
  hyperparameters cs' = hyperparameters cs.
Proof.
  revert cs. induction names as [|name rest IH]; intros cs; cbn.
  - by intros [= ->].
  - destruct (od_getitem av name) as [c|e]; [|done].
    destruct (component_search_space c props _) as [sub|e]; [|done].
    intros Hrest. by rewrite (IH _ Hrest).
Qed.

(** The loop indexes [available_scalers] with every choice: it only
    completes when every choice is one of its keys. *)
Lemma graft_names_available s names pre av props cs cs' :
  graft s names pre av props cs = Ok cs' →
  names ⊆ OrderedDict.keys av.
Proof.
  revert cs. induction names as [|name rest IH]; intros cs; cbn.
  - intros _ x Hx. by apply elem_of_nil in Hx.
  - unfold od_getitem. destruct (OrderedDict.get av name) as [c|] eqn:Hget; [|done].
    destruct (component_search_space c props _) as [sub|e]; [|done].
    intros Hrest x Hx. apply elem_of_cons in Hx as [->|Hx].
    + by eapply get_Some_keys.
    + by eapply IH.
Qed.

Lemma graft_total s names pre av props cs :
  (∀ n, n ∈ names →
        ∃ c sub, OrderedDict.get av n = Some c ∧
                 component_search_space c props
                   (_get_search_space_updates s (Some n)) = Ok sub) →
  ∃ cs', graft s names pre av props cs = Ok cs'.
Proof.
  revert cs. induction names as [|name rest IH]; intros cs Hall; cbn.
  - by eexists.
  - destruct (Hall name) as (c & sub & Hget & Hsub); [apply list_elem_of_here|].
    unfold od_getitem. rewrite Hget, Hsub.
    apply IH. intros n Hn. apply Hall. by apply list_elem_of_further.
Qed.

(** What the caller puts in the bag is what the call works on. *)
Lemma effective_properties_argument w (bag : gmap string PyValue) k v :
  bag !! k = Some v → effective_properties w (Some bag) !! k = Some v.
Proof. intros Hk. unfold effective_properties. by apply lookup_union_Some_l. Qed.

(** A call that raises leaves the registry and the instance as they were. *)
Lemma outcome_Raise_world w dp default include exclude e w' :
  outcome w dp default include exclude = (Raise e, w') → w' = w.
Proof.
  unfold outcome.
  destruct (available w dp include exclude) as [av|e0]; [|by intros [= _ <-]].
  case_bool_decide; [by intros [= _ <-]|].
  destruct (effective_properties w dp !! "numerical_columns") as [v|];
    [|by intros [= _ <-]].
  destruct (choice_parameter _ _ _ _ _) as [pre|e0]; [|by intros [= _ <-]].
  destruct (graft _ _ _ _ _ _) as [cs|e0]; [done|by intros [= _ <-]].
Qed.

(** What a call that returns went through. *)
Lemma outcome_Ok_inv w dp default include exclude cs w' :
  outcome w dp default include exclude = (Ok cs, w') →
  ∃ av v pre,
    available w dp include exclude = Ok av ∧
    av ≠ [] ∧
    effective_properties w dp !! "numerical_columns" = Some v ∧
    choice_parameter av (list_or_empty v) (choice_update w)
      (resolve_default default av include exclude) include = Ok pre ∧
    graft (self w) (hp_choices pre) pre av (effective_properties w dp)
      (add_hyperparameter empty_space pre) = Ok cs ∧
    w' = cached w cs (effective_properties w dp).
Proof.
  unfold outcome.
  destruct (available w dp include exclude) as [av|e0]; [|done].
  case_bool_decide as Hlen; [done|].
  destruct (effective_properties w dp !! "numerical_columns") as [v|]; [|done].
  destruct (choice_parameter _ _ _ _ _) as [pre|e0] eqn:Hpre; [|done].
  destruct (graft _ _ _ _ _ _) as [cs0|e0] eqn:Hgraft; [|done].
  intros [= <- <-]. exists av, v, pre. repeat split; try done.
  intros ->. by apply Hlen.
Qed.

(** The top-level parameter of a returned space is the one that was built. *)
Lemma graft_choice s pre av props cs :
  hp_name pre = "__choice__" →
  graft s (hp_choices pre) pre av props (add_hyperparameter empty_space pre) = Ok cs →
  get_hyperparameter cs "__choice__" = Some pre.
Proof.
  intros Hname Hgraft. unfold get_hyperparameter.
  rewrite (graft_hyperparameters _ _ _ _ _ _ _ Hgraft). cbn.
  by rewrite bool_decide_eq_true_2.
Qed.

End Outcome.

(** ** Properties of [get_hyperparameter_search_space] *)

Section Claims.
Context `{autoPyTorchChoice}.

Lemma choice_parameter_Ok av numerical_columns update default include pre :
  choice_parameter av numerical_columns update default include = Ok pre →
  ∃ choices d, pre = Categorical "__choice__" choices d ∧ d ∈ choices.
Proof.
  unfold choice_parameter. intros Hpre.
  assert (∃ choices d, CategoricalHyperparameter "__choice__" choices d = Ok pre)
    as (choices & d & Hbuilt).
  { destruct update as [ch|].
    - destruct (negb (forallb _ _)); [discriminate|].
      destruct (bool_decide (length numerical_columns = 0) && _); [discriminate|].
      destruct (bool_decide (length numerical_columns = 0) && _); [discriminate|].
      eauto.
    - destruct (bool_decide (length numerical_columns = 0)); [|eauto].
      destruct include as [inc|]; [|eauto].
      destruct (bool_decide ("NoScaler" ∈ inc)); [eauto|discriminate]. }
  apply CategoricalHyperparameter_Ok in Hbuilt as (d' & -> & Hd' & _).
  eauto.
Qed.

(** Without numerical columns and without an update of the choice, the
    parameter that is built is the no-op-only one. *)
Lemma collapsed_choice w dp default include exclude v cs w' :
  effective_properties w dp !! "numerical_columns" = Some v →
  list_or_empty v = [] →
  choice_update w = None →
  outcome w dp default include exclude = (Ok cs, w') →
  get_hyperparameter cs "__choice__" = Some NoScaler_only.
Proof.
  intros Hv Hempty Hupd Hout.
  apply outcome_Ok_inv in Hout as (av & v' & pre & _ & _ & Hv' & Hpre & Hgraft & _).
  rewrite Hv in Hv'. injection Hv' as <-.
  rewrite Hempty, Hupd in Hpre. cbn [choice_parameter length] in Hpre.
  rewrite bool_decide_eq_true_2 in Hpre by done.
  assert (pre = NoScaler_only) as ->.
  { destruct include as [inc|];
      [destruct (bool_decide ("NoScaler" ∈ inc)); [|discriminate]|];
      vm_compute in Hpre; by injection Hpre as <-. }
  by eapply graft_choice.
Qed.

Lemma collapsed_returns w dp default include exclude v av c sub :
  effective_properties w dp !! "numerical_columns" = Some v →
  list_or_empty v = [] →
  choice_update w = None →
  available w dp include exclude = Ok av →
  OrderedDict.get av "NoScaler" = Some c →
  (∀ inc, include = Some inc → "NoScaler" ∈ inc) →
  component_search_space c (effective_properties w dp)
    (_get_search_space_updates (self w) (Some "NoScaler")) = Ok sub →
  let cs := mkConfigurationSpace [NoScaler_only]
              [("NoScaler", sub, (NoScaler_only, "NoScaler"))] in
  outcome w dp default include exclude =
  (Ok cs, cached w cs (effective_properties w dp)).
Proof.
  intros Hv Hempty Hupd Hav Hget Hinc Hsub cs. unfold outcome.
  rewrite Hav. rewrite bool_decide_eq_false_2; [|by destruct av].
  rewrite Hv, Hempty, Hupd. cbn [choice_parameter length].
  rewrite bool_decide_eq_true_2 by done.
  assert (CategoricalHyperparameter "__choice__" ["NoScaler"] (Some "NoScaler")
          = Ok NoScaler_only) as Hbuilt by (by vm_compute).
  assert (match include with
          | Some inc =>
              if bool_decide ("NoScaler" ∈ inc)
              then CategoricalHyperparameter "__choice__" ["NoScaler"] (Some "NoScaler")
              else Raise (ValueError (IncludeIncompatible inc))
          | None => CategoricalHyperparameter "__choice__" ["NoScaler"] (Some "NoScaler")
          end = Ok NoScaler_only) as ->.
  { destruct include as [inc|]; [|done].
    by rewrite bool_decide_eq_true_2 by by apply Hinc. }
  cbn [hp_choices NoScaler_only graft]. unfold od_getitem.
  by rewrite Hget, Hsub.
Qed.

(** C1: when the bag the call works on has an empty list under
    'numerical_columns' and no update of '__choice__' is registered, every
    space the method returns has the '__choice__' categorical with the
    single choice 'NoScaler' and default 'NoScaler', whatever else is
    registered or available; and the method does return such a space as
    soon as 'NoScaler' is among the available scalers, is in the include
    list when one is given, and builds its own sub-space. *)
Theorem no_numerical_columns_choice_is_NoScaler
    w dp default include exclude :
  effective_properties w dp !! "numerical_columns" = Some (PyList []) →
  choice_update w = None →
  (∀ cs w',
     run (get_hyperparameter_search_space dp default include exclude) w = (Ok cs, w') →
     get_hyperparameter cs "__choice__" = Some NoScaler_only) ∧
  (∀ av c sub,
     available w dp include exclude = Ok av →
     OrderedDict.get av "NoScaler" = Some c →
     (∀ inc, include = Some inc → "NoScaler" ∈ inc) →
     component_search_space c (effective_properties w dp)
       (_get_search_space_updates (self w) (Some "NoScaler")) = Ok sub →
     ∃ cs,
       run (get_hyperparameter_search_space dp default include exclude) w =
       (Ok cs, cached w cs (effective_properties w dp))).
Proof.
  intros Hv Hupd. split.
  - intros cs w'. rewrite get_hyperparameter_search_space_run.
    by eapply collapsed_choice.
  - intros av c sub Hav Hget Hinc Hsub. eexists.
    rewrite get_hyperparameter_search_space_run.
    by eapply collapsed_returns.
Qed.

(** C10: when the value under 'numerical_columns' is present but is not a
    list, the method works with the same (empty) list of numerical columns
    as for an empty list: with no update of '__choice__', every space it
    returns has the 'NoScaler'-only choice with default 'NoScaler', and
    it returns one under the same conditions as for an empty list. *)
Theorem non_list_numerical_columns_as_empty
    w dp default include exclude v :
  effective_properties w dp !! "numerical_columns" = Some v →
  is_list v = false →
  choice_update w = None →
  list_or_empty v = list_or_empty (PyList []) ∧
  (∀ cs w',
     run (get_hyperparameter_search_space dp default include exclude) w = (Ok cs, w') →
     get_hyperparameter cs "__choice__" = Some NoScaler_only) ∧
  (∀ av c sub,
     available w dp include exclude = Ok av →
     OrderedDict.get av "NoScaler" = Some c →
     (∀ inc, include = Some inc → "NoScaler" ∈ inc) →
     component_search_space c (effective_properties w dp)
       (_get_search_space_updates (self w) (Some "NoScaler")) = Ok sub →
     ∃ cs,
       run (get_hyperparameter_search_space dp default include exclude) w =
       (Ok cs, cached w cs (effective_properties w dp))).
Proof.
  intros Hv Hlist Hupd.
  assert (list_or_empty v = []) as Hempty by (by destruct v).
  split; [done|]. split.
  - intros cs w'. rewrite get_hyperparameter_search_space_run.
    by eapply collapsed_choice.
  - intros av c sub Hav Hget Hinc Hsub. eexists.
    rewrite get_hyperparameter_search_space_run.
    by eapply collapsed_returns.
Qed.

Lemma outcome_dichotomy w dp default include exclude :
  (∃ e, outcome w dp default include exclude = (Raise e, w)) ∨
  (∃ cs, outcome w dp default include exclude =
         (Ok cs, cached w cs (effective_properties w dp))).
Proof.
  destruct (outcome w dp default include exclude) as [[cs|e] w'] eqn:Hout.
  - right. exists cs.
    by apply outcome_Ok_inv in Hout as (? & ? & ? & _ & _ & _ & _ & _ & ->).
  - left. exists e. by apply outcome_Raise_world in Hout as ->.
Qed.

(** C8: when 'numerical_columns' is an empty list, no update of
    '__choice__' is registered and an include list without 'NoScaler' is
    given, the method fails and changes nothing; once the available
    scalers were computed and are not empty, the error is the
    ValueError about the include list. *)
Theorem include_without_NoScaler_fails w dp default inc exclude :
  effective_properties w dp !! "numerical_columns" = Some (PyList []) →
  choice_update w = None →
  "NoScaler" ∉ inc →
  (∃ e, run (get_hyperparameter_search_space dp default (Some inc) exclude) w
        = (Raise e, w)) ∧
  (∀ av, available w dp (Some inc) exclude = Ok av → av ≠ [] →
         run (get_hyperparameter_search_space dp default (Some inc) exclude) w
         = (Raise (ValueError (IncludeIncompatible inc)), w)).
Proof.
  intros Hv Hupd Hinc.
  assert (∀ av, available w dp (Some inc) exclude = Ok av → av ≠ [] →
                outcome w dp default (Some inc) exclude
                = (Raise (ValueError (IncludeIncompatible inc)), w)) as Hstage.
  { intros av Hav Hne. unfold outcome. rewrite Hav.
    rewrite bool_decide_eq_false_2 by (by destruct av).
    rewrite Hv, Hupd. cbn [choice_parameter list_or_empty length].
    rewrite bool_decide_eq_true_2 by done.
    by rewrite bool_decide_eq_false_2. }
  rewrite get_hyperparameter_search_space_run. split; [|done].
  destruct (outcome_dichotomy w dp default (Some inc) exclude)
    as [Hraise|[cs Hok]]; [done|].
  apply outcome_Ok_inv in Hok as Hinv.
  destruct Hinv as (av & _ & _ & Hav & Hne & _).
  rewrite (Hstage av Hav Hne) in Hok. discriminate.
Qed.

(** C3: in every space the method returns, each choice of '__choice__' is
    a key of the available scalers computed for that call, and the default
    of '__choice__' is one of its choices. *)
Theorem returned_choice_is_available_and_default_is_choice
    w dp default include exclude cs w' :
  run (get_hyperparameter_search_space dp default include exclude) w = (Ok cs, w') →
  ∃ av choices d,
    available w dp include exclude = Ok av ∧
    get_hyperparameter cs "__choice__" = Some (Categorical "__choice__" choices d) ∧
    (∀ name, name ∈ choices → name ∈ OrderedDict.keys av) ∧
    d ∈ choices.
Proof.
  rewrite get_hyperparameter_search_space_run. intros Hout.
  apply outcome_Ok_inv in Hout as (av & v & pre & Hav & _ & _ & Hpre & Hgraft & _).
  apply choice_parameter_Ok in Hpre as (choices & d & -> & Hd).
  exists av, choices, d. repeat split; [done| |..|done].
  - by eapply graft_choice.
  - intros name Hname.
    by apply (graft_names_available _ _ _ _ _ _ _ Hgraft).
Qed.

(** C2: when an update of '__choice__' is registered whose value range is
    not a subset of the names of the available scalers, the method fails
    and leaves the registry and the instance (its cached
    configuration_space and dataset_properties) as they were; once the
    available scalers are not empty and 'numerical_columns' is in the bag,
    the error is the ValueError that reports the available names and the
    given value range. *)
Theorem update_outside_available_fails w dp default include exclude av ch :
  available w dp include exclude = Ok av →
  choice_update w = Some ch →
  ¬ value_range ch ⊆ OrderedDict.keys av →
  (∃ e, run (get_hyperparameter_search_space dp default include exclude) w
        = (Raise e, w)) ∧
  (av ≠ [] →
   is_Some (effective_properties w dp !! "numerical_columns") →
   run (get_hyperparameter_search_space dp default include exclude) w
   = (Raise (ValueError (UpdateChoicesNotAvailable "ScalerChoice"
                           (OrderedDict.keys av) (value_range ch))), w)).
Proof.
  intros Hav Hupd Hsub.
  assert (forallb (fun c => OrderedDict.mem c av) (value_range ch) = false) as Hcheck.
  { apply not_true_is_false. by rewrite subset_forallb. }
  rewrite get_hyperparameter_search_space_run. unfold outcome.
  rewrite Hav, Hupd. cbn [choice_parameter]. rewrite Hcheck. cbn [negb].
  split.
  - case_bool_decide; [by eexists|].
    destruct (effective_properties w dp !! "numerical_columns"); by eexists.
  - intros Hne [v ->]. by rewrite bool_decide_eq_false_2 by (by destruct av).
Qed.

(** C5 (as amended): when 'numerical_columns' is an empty list and an
    update of '__choice__' is registered whose value range passed the
    subset check, any value range other than ['NoScaler'] makes the method
    fail without changing anything: with the ValueError about the
    incompatible dataset when the range is a single other name, and with
    the AssertionError of the length assertion when the range does not
    have exactly one element. *)
Theorem no_numerical_columns_update_must_be_NoScaler
    w dp default include exclude av ch :
  available w dp include exclude = Ok av →
  av ≠ [] →
  effective_properties w dp !! "numerical_columns" = Some (PyList []) →
  choice_update w = Some ch →
  value_range ch ⊆ OrderedDict.keys av →
  value_range ch ≠ ["NoScaler"] →
  run (get_hyperparameter_search_space dp default include exclude) w =
  (Raise (if decide (length (value_range ch) = 1)
          then ValueError (ChoicesIncompatible (value_range ch))
          else AssertionError None), w).
Proof.
  intros Hav Hne Hv Hupd Hsub Hrange.
  rewrite get_hyperparameter_search_space_run. unfold outcome.
  rewrite Hav, Hv, Hupd. rewrite bool_decide_eq_false_2 by (by destruct av).
  cbn [choice_parameter list_or_empty length].
  apply subset_forallb in Hsub. rewrite Hsub. cbn [negb].
  rewrite (bool_decide_eq_true_2 (0 = 0)) by done. cbn [andb].
  case_decide as Hlen.
  - rewrite (bool_decide_eq_true_2 _ Hlen). cbn [negb].
    rewrite bool_decide_eq_false_2; [done|].
    destruct (value_range ch) as [|x [|y l]]; try done.
    intros Hin. apply list_elem_of_singleton in Hin. by subst.
  - by rewrite (bool_decide_eq_false_2 _ Hlen).
Qed.

Lemma choice_parameter_update_Ok av numerical_columns ch default include pre :
  choice_parameter av numerical_columns (Some ch) default include = Ok pre →
  pre = Categorical "__choice__" (value_range ch) (default_value ch) ∧
  default_value ch ∈ value_range ch.
Proof.
  cbn [choice_parameter].
  destruct (negb (forallb _ _)); [discriminate|].
  destruct (bool_decide (length numerical_columns = 0) && _); [discriminate|].
  destruct (bool_decide (length numerical_columns = 0) && _); [discriminate|].
  intros Hbuilt.
  by apply CategoricalHyperparameter_Ok in Hbuilt as (d' & -> & Hd' & _ & ->).
Qed.

(** C6: when an update of '__choice__' is registered whose default value
    is not in its own value range, the method never composes a space: it
    fails and changes nothing; once the earlier checks on the update pass
    (its range has no repeated name, lies within the available scalers and,
    without numerical columns, is ['NoScaler']), the error is the
    ValueError about the illegal default value. *)
Theorem update_default_outside_range_fails w dp default include exclude ch :
  choice_update w = Some ch →
  default_value ch ∉ value_range ch →
  (∃ e, run (get_hyperparameter_search_space dp default include exclude) w
        = (Raise e, w)) ∧
  (∀ av v,
     available w dp include exclude = Ok av → av ≠ [] →
     effective_properties w dp !! "numerical_columns" = Some v →
     value_range ch ⊆ OrderedDict.keys av →
     NoDup (value_range ch) →
     (list_or_empty v = [] → value_range ch = ["NoScaler"]) →
     run (get_hyperparameter_search_space dp default include exclude) w
     = (Raise (ValueError (IllegalDefault (default_value ch))), w)).
Proof.
  intros Hupd Hdefault. rewrite get_hyperparameter_search_space_run. split.
  - destruct (outcome_dichotomy w dp default include exclude)
      as [Hraise|[cs Hok]]; [done|].
    apply outcome_Ok_inv in Hok as (av & v & pre & _ & _ & _ & Hpre & _).
    rewrite Hupd in Hpre. by apply choice_parameter_update_Ok in Hpre as [_ ?].
  - intros av v Hav Hne Hv Hsub Hnd Hcollapse. unfold outcome.
    rewrite Hav, Hv, Hupd. rewrite bool_decide_eq_false_2 by (by destruct av).
    cbn [choice_parameter].
    apply subset_forallb in Hsub. rewrite Hsub. cbn [negb].
    assert (bool_decide (length (list_or_empty v) = 0)
            && negb (bool_decide (length (value_range ch) = 1)) = false) as ->.
    { case_bool_decide as Hlen; [|done].
      rewrite Hcollapse by (by destruct (list_or_empty v)). done. }
    assert (bool_decide (length (list_or_empty v) = 0)
            && negb (bool_decide ("NoScaler" ∈ value_range ch)) = false) as ->.
    { case_bool_decide as Hlen; [|done].
      rewrite Hcollapse by (by destruct (list_or_empty v)).
      rewrite bool_decide_eq_true_2; [done|]. apply list_elem_of_here. }
    rewrite CategoricalHyperparameter_default_outside by done.
    apply first_repeated_NoDup in Hnd. by rewrite Hnd.
Qed.

Lemma scan_defaults_eligible av include exclude d rest :
  eligible av include exclude d →
  scan_defaults (d :: rest) av include exclude = Some d.
Proof.
  intros (Hav & Hinc & Hexc). cbn [scan_defaults].
  apply mem_keys in Hav. rewrite Hav.
  destruct include as [inc|].
  - rewrite bool_decide_eq_true_2 by (by apply Hinc). cbn [negb].
    destruct exclude as [exc|]; [|done].
    by rewrite bool_decide_eq_false_2 by (by apply Hexc).
  - destruct exclude as [exc|]; [|done].
    by rewrite bool_decide_eq_false_2 by (by apply Hexc).
Qed.

Lemma scan_defaults_not_eligible av include exclude x rest :
  ¬ eligible av include exclude x →
  scan_defaults (x :: rest) av include exclude =
  scan_defaults rest av include exclude.
Proof.
  intros Hx. cbn [scan_defaults].
  destruct (OrderedDict.mem x av) eqn:Hav; [|done].
  apply mem_keys in Hav.
  destruct include as [inc|].
  - case_bool_decide as Hinc; [|done]. cbn [negb].
    destruct exclude as [exc|].
    + case_bool_decide as Hexc; [done|].
      exfalso. apply Hx. repeat split; [done|by intros ? [= <-]..].
    + exfalso. apply Hx. repeat split; [done|by intros ? [= <-]|done].
  - destruct exclude as [exc|].
    + case_bool_decide as Hexc; [done|].
      exfalso. apply Hx. repeat split; [done|done|by intros ? [= <-]].
    + exfalso. apply Hx. by repeat split.
Qed.

Lemma scan_defaults_first av include exclude before d after :
  eligible av include exclude d →
  (∀ x, x ∈ before → ¬ eligible av include exclude x) →
  scan_defaults (before ++ d :: after) av include exclude = Some d.
Proof.
  intros Hd. induction before as [|x before IH]; intros Hbefore.
  - by apply scan_defaults_eligible.
  - rewrite <- app_comm_cons.
    rewrite scan_defaults_not_eligible by (apply Hbefore, list_elem_of_here).
    apply IH. intros y Hy. apply Hbefore. by apply list_elem_of_further.
Qed.

(** With numerical columns and no update of the choice, the parameter is
    built from the names of the available scalers and [default]. *)
Lemma numerical_choice w dp default include exclude av v cs w' :
  available w dp include exclude = Ok av →
  effective_properties w dp !! "numerical_columns" = Some v →
  list_or_empty v ≠ [] →
  choice_update w = None →
  outcome w dp default include exclude = (Ok cs, w') →
  ∃ d, get_hyperparameter cs "__choice__"
       = Some (Categorical "__choice__" (OrderedDict.keys av) d) ∧
       match resolve_default default av include exclude with
       | Some x => d = x
       | None => head (OrderedDict.keys av) = Some d
       end.
Proof.
  intros Hav Hv Hcols Hupd Hout.
  apply outcome_Ok_inv in Hout as (av' & v' & pre & Hav' & _ & Hv' & Hpre & Hgraft & _).
  rewrite Hav in Hav'. injection Hav' as <-.
  rewrite Hv in Hv'. injection Hv' as <-.
  rewrite Hupd in Hpre. cbn [choice_parameter] in Hpre.
  rewrite bool_decide_eq_false_2 in Hpre by (by destruct (list_or_empty v)).
  apply CategoricalHyperparameter_Ok in Hpre as (d & -> & _ & _ & Hd).
  exists d. split; [by eapply graft_choice|done].
Qed.

(** C4 (as amended): with no explicit default, numerical columns present
    and no update of '__choice__', a preference scan that finds no
    candidate raises no error: the categorical is built from the names of
    the available scalers without a default, its default is the first
    available name, and the method returns that space when every available
    scaler builds its own sub-space. *)
Theorem missing_default_becomes_first_available w dp include exclude av v :
  available w dp include exclude = Ok av →
  av ≠ [] →
  NoDup (OrderedDict.keys av) →
  effective_properties w dp !! "numerical_columns" = Some v →
  list_or_empty v ≠ [] →
  choice_update w = None →
  scan_defaults defaults av include exclude = None →
  (∀ name c, OrderedDict.get av name = Some c →
             ∃ sub, component_search_space c (effective_properties w dp)
                      (_get_search_space_updates (self w) (Some name)) = Ok sub) →
  ∃ cs first,
    run (get_hyperparameter_search_space dp None include exclude) w
    = (Ok cs, cached w cs (effective_properties w dp)) ∧
    head (OrderedDict.keys av) = Some first ∧
    get_hyperparameter cs "__choice__"
    = Some (Categorical "__choice__" (OrderedDict.keys av) first).
Proof.
  intros Hav Hne Hnd Hv Hcols Hupd Hscan Hsubs.
  rewrite get_hyperparameter_search_space_run.
  destruct av as [|[first c0] av'] eqn:Heq; [done|]. rewrite <- Heq in *.
  set (pre := Categorical "__choice__" (OrderedDict.keys av) first).
  assert (head (OrderedDict.keys av) = Some first) as Hhead by (by rewrite Heq).
  assert (choice_parameter av (list_or_empty v) None
            (resolve_default None av include exclude) include = Ok pre) as Hpre.
  { cbn [choice_parameter resolve_default]. rewrite Hscan.
    rewrite bool_decide_eq_false_2 by (by destruct (list_or_empty v)).
    unfold CategoricalHyperparameter.
    apply first_repeated_NoDup in Hnd. rewrite Hnd.
    revert Hhead. unfold pre.
    destruct (OrderedDict.keys av); [done|]. by intros [= ->]. }
  destruct (graft_total (self w) (hp_choices pre) pre av (effective_properties w dp)
              (add_hyperparameter empty_space pre)) as [cs Hgraft].
  { intros name Hname. cbn [hp_choices pre] in Hname.
    apply keys_get_is_Some in Hname as [c Hc].
    destruct (Hsubs name c Hc) as [sub Hsub]. eauto. }
  exists cs, first. split; [|split; [done|by eapply graft_choice]].
  unfold outcome. rewrite Hav.
  rewrite bool_decide_eq_false_2 by (by rewrite Heq).
  by rewrite Hv, Hupd, Hpre, Hgraft.
Qed.

End Claims.

(** ** The properties on concrete calls *)

Local Ltac by_computation := vm_compute; reflexivity.
Local Ltac decided := refine (bool_decide_unpack _ _); vm_compute; exact I.

(** Scenario 2. *)
Lemma no_numerical_columns_choice_is_NoScaler_witness :
  run (call (Some categorical_bag) None None None)
      (world standard_and_no_scaler fresh_self)
  = (Ok scenario2_space,
     world standard_and_no_scaler
       {| Self.dataset_properties := categorical_bag;
          Self.configuration_space := Some scenario2_space;
          Self.search_space_updates := ∅ |}) ∧
  get_hyperparameter scenario2_space "__choice__" = Some NoScaler_only.
Proof.
  destruct (@no_numerical_columns_choice_is_NoScaler spec_choice
              (world standard_and_no_scaler fresh_self) (Some categorical_bag)
              None None None) as [Hchoice _]; [by_computation..|].
  assert (run (call (Some categorical_bag) None None None)
              (world standard_and_no_scaler fresh_self)
          = (Ok scenario2_space,
             world standard_and_no_scaler
               {| Self.dataset_properties := categorical_bag;
                  Self.configuration_space := Some scenario2_space;
                  Self.search_space_updates := ∅ |})) as Hrun by by_computation.
  split; [exact Hrun|]. exact (Hchoice _ _ Hrun).
Defined.

(** An update that names a scaler nobody registered. *)
Lemma update_outside_available_fails_witness :
  let w := world standard_and_no_scaler (self_with_choice_update ["FooScaler"] "FooScaler") in
  run (call (Some numerical_bag) None None None) w
  = (Raise (ValueError (UpdateChoicesNotAvailable "ScalerChoice"
                          ["StandardScaler"; "NoScaler"] ["FooScaler"])), w).
Proof.
  intros w.
  destruct (@update_outside_available_fails spec_choice w (Some numerical_bag)
              None None None
              [("StandardScaler", plain_scaler); ("NoScaler", plain_scaler)]
              {| value_range := ["FooScaler"]; default_value := "FooScaler" |})
    as [_ Herror]; [by_computation..| |].
  - intros Hsub.
    assert ("FooScaler" ∉ ["StandardScaler"; "NoScaler"]) as Hnot by decided.
    apply Hnot, (Hsub "FooScaler"), list_elem_of_here.
  - apply Herror; [done|]. exists (PyList [PyStr "c1"]). by_computation.
Defined.

(** Scenario 1. *)
Lemma returned_choice_is_available_and_default_is_choice_witness :
  ∃ av choices d,
    @available spec_choice (world standard_and_no_scaler fresh_self)
      (Some numerical_bag) None None = Ok av ∧
    get_hyperparameter scenario1_space "__choice__"
    = Some (Categorical "__choice__" choices d) ∧
    (∀ name, name ∈ choices → name ∈ OrderedDict.keys av) ∧
    d ∈ choices.
Proof.
  eapply (@returned_choice_is_available_and_default_is_choice spec_choice
            (world standard_and_no_scaler fresh_self) (Some numerical_bag)
            None None None scenario1_space).
  by_computation.
Defined.

(** Only the third-party scaler is included: no name of the preference list
    is available. *)
Lemma missing_default_becomes_first_available_witness :
  let w := world builtin_and_my_scaler fresh_self in
  ∃ cs first,
    run (call (Some numerical_bag) None (Some ["MyScaler"]) None) w
    = (Ok cs, @cached w cs (effective_properties w (Some numerical_bag))) ∧
    head (OrderedDict.keys [("MyScaler", plain_scaler)]) = Some first ∧
    get_hyperparameter cs "__choice__"
    = Some (Categorical "__choice__"
              (OrderedDict.keys [("MyScaler", plain_scaler)]) first).
Proof.
  intros w.
  apply (@missing_default_becomes_first_available spec_choice w (Some numerical_bag)
           (Some ["MyScaler"]) None [("MyScaler", plain_scaler)] (PyList [PyStr "c1"])).
  - by_computation.
  - discriminate.
  - decided.
  - by_computation.
  - discriminate.
  - by_computation.
  - by_computation.
  - intros name c. cbn [OrderedDict.get]. case_decide; [|discriminate].
    intros [= <-]. by exists empty_space.
Defined.

(** Scenario 4. *)
Lemma no_numerical_columns_update_must_be_NoScaler_witness :
  let w := world standard_and_no_scaler
             (self_with_choice_update ["StandardScaler"] "StandardScaler") in
  run (call (Some categorical_bag) None None None) w
  = (Raise (ValueError (ChoicesIncompatible ["StandardScaler"])), w).
Proof.
  intros w.
  apply (@no_numerical_columns_update_must_be_NoScaler spec_choice w
           (Some categorical_bag) None None None
           [("StandardScaler", plain_scaler); ("NoScaler", plain_scaler)]
           {| value_range := ["StandardScaler"]; default_value := "StandardScaler" |}).
  - by_computation.
  - discriminate.
  - by_computation.
  - by_computation.
  - intros x Hx. apply list_elem_of_singleton in Hx as ->. apply list_elem_of_here.
  - discriminate.
Defined.

(** An update whose default is not one of its values. *)
Lemma update_default_outside_range_fails_witness :
  let w := world standard_and_no_scaler
             (self_with_choice_update ["StandardScaler"] "NoScaler") in
  run (call (Some numerical_bag) None None None) w
  = (Raise (ValueError (IllegalDefault "NoScaler")), w).
Proof.
  intros w.
  destruct (@update_default_outside_range_fails spec_choice w (Some numerical_bag)
              None None None
              {| value_range := ["StandardScaler"]; default_value := "NoScaler" |})
    as [_ Herror].
  - by_computation.
  - decided.
  - apply (Herror [("StandardScaler", plain_scaler); ("NoScaler", plain_scaler)]
             (PyList [PyStr "c1"])).
    + by_computation.
    + discriminate.
    + by_computation.
    + intros x Hx. apply list_elem_of_singleton in Hx as ->. apply list_elem_of_here.
    + decided.
    + discriminate.
Defined.

(** An include list that leaves the no-op scaler out. *)
Lemma include_without_NoScaler_fails_witness :
  let w := world standard_and_no_scaler fresh_self in
  run (call (Some categorical_bag) None (Some ["StandardScaler"]) None) w
  = (Raise (ValueError (IncludeIncompatible ["StandardScaler"])), w).
Proof.
  intros w.
  destruct (@include_without_NoScaler_fails spec_choice w (Some categorical_bag)
              None ["StandardScaler"] None) as [_ Herror].
  - by_computation.
  - by_computation.
  - decided.
  - apply (Herror [("StandardScaler", plain_scaler)]); [by_computation|discriminate].
Defined.

(** A string where the list of numerical columns should be. *)
Lemma non_list_numerical_columns_as_empty_witness :
  let w := world standard_and_no_scaler fresh_self in
  ∃ cs, run (call (Some text_for_columns) None None None) w
        = (Ok cs, @cached w cs (effective_properties w (Some text_for_columns))) ∧
        get_hyperparameter cs "__choice__" = Some NoScaler_only.
Proof.
  intros w.
  destruct (@non_list_numerical_columns_as_empty spec_choice w (Some text_for_columns)
              None None None (PyStr "c1")) as (_ & Hchoice & Hreturns);
    [by_computation..|].
  destruct (Hreturns [("StandardScaler", plain_scaler); ("NoScaler", plain_scaler)]
              plain_scaler empty_space) as [cs Hrun];
    [by_computation|by_computation|discriminate|by_computation|].
  exists cs. split; [exact Hrun|]. exact (Hchoice _ _ Hrun).
Defined.

(** ** Calls on which the stated behaviour does not occur *)

(** Only the third-party scaler is included, so the preference scan finds
    no candidate among the available scalers; yet a space is returned:
    without an update the first available name becomes the default, with an
    update the default of the update is taken. *)
Lemma scan_without_candidate_returns_space :
  @available spec_choice (world builtin_and_my_scaler fresh_self)
    (Some numerical_bag) (Some ["MyScaler"]) None = Ok [("MyScaler", plain_scaler)] ∧
  scan_defaults defaults [("MyScaler", plain_scaler)] (Some ["MyScaler"]) None = None ∧
  fst (run (call (Some numerical_bag) None (Some ["MyScaler"]) None)
           (world builtin_and_my_scaler fresh_self)) = Ok my_scaler_space ∧
  fst (run (call (Some numerical_bag) None (Some ["MyScaler"]) None)
           (world builtin_and_my_scaler
              (self_with_choice_update ["MyScaler"] "MyScaler")))
  = Ok my_scaler_space.
Proof. repeat split; by_computation. Qed.

(** Without numerical columns, an update with two names (both available)
    fails the length assertion, not the check that raises the ValueError
    about the incompatible dataset. *)
Lemma two_name_update_fails_assertion :
  let w := world standard_and_no_scaler
             (self_with_choice_update ["StandardScaler"; "NoScaler"] "NoScaler") in
  fst (run (call (Some categorical_bag) None None None) w) = Raise (AssertionError None) ∧
  fst (run (call (Some categorical_bag) None None None) w)
  ≠ Raise (ValueError (ChoicesIncompatible ["StandardScaler"; "NoScaler"])).
Proof.
  intros w.
  assert (fst (run (call (Some categorical_bag) None None None) w)
          = Raise (AssertionError None)) as Hrun by by_computation.
  split; [exact Hrun|]. rewrite Hrun. discriminate.
Qed.

(** ** Ordered dictionaries: assignment and update *)

Lemma get_not_key {V} (d : OrderedDict.t V) k :
  k ∉ OrderedDict.keys d → OrderedDict.get d k = None.
Proof.
  intros Hk. destruct (OrderedDict.get d k) as [v|] eqn:Hget; [|done].
  by apply get_Some_keys in Hget.
Qed.

Lemma get_set {V} (d : OrderedDict.t V) k v k' :
  OrderedDict.get (OrderedDict.set d k v) k' =
  if decide (k = k') then Some v else OrderedDict.get d k'.
Proof.
  induction d as [|[k0 v0] d IH]; cbn.
  - by repeat case_decide.
  - destruct (decide (k0 = k)) as [->|Hk0]; cbn.
    + by repeat case_decide.
    + rewrite IH. repeat case_decide; congruence.
Qed.

Lemma keys_set {V} (d : OrderedDict.t V) k v :
  OrderedDict.keys (OrderedDict.set d k v) =
  if decide (k ∈ OrderedDict.keys d) then OrderedDict.keys d
  else (OrderedDict.keys d ++ [k])%list.
Proof.
  unfold OrderedDict.keys. induction d as [|[k0 v0] d IH]; cbn.
  - case_decide as Hin; [by apply elem_of_nil in Hin|done].
  - destruct (decide (k0 = k)) as [->|Hk0]; cbn.
    + by rewrite decide_True by apply list_elem_of_here.
    + rewrite IH. destruct (decide (k ∈ d.*1)) as [Hin|Hin].
      * by rewrite decide_True by (by apply list_elem_of_further).
      * rewrite decide_False; [done|].
        intros [->|?]%elem_of_cons; done.
Qed.

Lemma get_update {V} (d other : OrderedDict.t V) k :
  NoDup (OrderedDict.keys other) →
  OrderedDict.get (OrderedDict.update d other) k =
  match OrderedDict.get other k with
  | Some v => Some v
  | None => OrderedDict.get d k
  end.
Proof.
  unfold OrderedDict.update. revert d.
  induction other as [|[k0 v0] other IH]; intros d Hnd; [done|].
  apply NoDup_cons in Hnd as [Hk0 Hnd]. cbn.
  rewrite (IH _ Hnd), get_set.
  destruct (decide (k0 = k)) as [->|Hne]; [|done].
  by rewrite get_not_key.
Qed.

Lemma filter_agree {A} (P Q : A → Prop) `{!∀ x, Decision (P x)}
    `{!∀ x, Decision (Q x)} (l : list A) :
  (∀ x, x ∈ l → P x ↔ Q x) → filter P l = filter Q l.
Proof.
  induction l as [|x l IH]; intros Hagree; [done|].
  assert (filter P l = filter Q l) as Hrest.
  { apply IH. intros y Hy. apply Hagree. by apply list_elem_of_further. }
  destruct (decide (P x)) as [HP|HP].
  - rewrite !filter_cons_True; [by rewrite Hrest|by apply Hagree; [apply list_elem_of_here|]|done].
  - rewrite !filter_cons_False; [done| |done].
    intros HQ. apply HP, Hagree; [apply list_elem_of_here|done].
Qed.

Lemma keys_update {V} (d other : OrderedDict.t V) :
  NoDup (OrderedDict.keys other) →
  OrderedDict.keys (OrderedDict.update d other) =
  (OrderedDict.keys d
   ++ filter (λ k, k ∉ OrderedDict.keys d) (OrderedDict.keys other))%list.
Proof.
  unfold OrderedDict.update. revert d.
  induction other as [|[k0 v0] other IH]; intros d Hnd.
  - cbn. by rewrite app_nil_r.
  - apply NoDup_cons in Hnd as [Hk0 Hnd]. cbn [fold_left fst snd].
    rewrite (IH _ Hnd), keys_set.
    change (OrderedDict.keys ((k0, v0) :: other)) with (k0 :: OrderedDict.keys other).
    destruct (decide (k0 ∈ OrderedDict.keys d)) as [Hin|Hin].
    + by rewrite filter_cons_False by (by intros ?).
    + rewrite filter_cons_True by done. rewrite <- app_assoc. cbn.
      do 2 f_equal. apply filter_agree.
      intros x Hx. rewrite elem_of_app, list_elem_of_singleton.
      split; [tauto|]. intros Hxd [?| ->]; done.
Qed.

(** ** Properties of [get_components] *)

Lemma keys_update_empty {V} (other : OrderedDict.t V) :
  NoDup (OrderedDict.keys other) →
  OrderedDict.keys (OrderedDict.update [] other) = OrderedDict.keys other.
Proof.
  intros Hnd. rewrite keys_update by done. cbn.
  induction (OrderedDict.keys other) as [|k l IH]; [done|].
  apply NoDup_cons in Hnd as [_ Hnd].
  rewrite filter_cons_True by (by intros ?%elem_of_nil). by rewrite IH.
Qed.

(** X2: in the dictionary [get_components] returns, a name registered as a
    third-party addon maps to the addon, also when a built-in scaler has the
    same name; every other name maps to what the built-in registry holds for
    it. *)
Theorem get_components_addon_overrides w components name :
  NoDup (OrderedDict.keys (_scalers (registry w))) →
  NoDup (OrderedDict.keys (_addons (registry w))) →
  run get_components w = (Ok components, w) →
  OrderedDict.get components name =
  match OrderedDict.get (_addons (registry w)) name with
  | Some addon => Some addon
  | None => OrderedDict.get (_scalers (registry w)) name
  end.
Proof.
  intros Hscalers Haddons [= <-].
  rewrite !get_update by done.
  by destruct (OrderedDict.get (_scalers (registry w)) name).
Qed.

(** X3: the names of the dictionary [get_components] returns are the
    built-in names in their order, an overridden built-in keeping its place,
    followed by the third-party names that are not built-in names, in their
    order. *)
Theorem get_components_order w components :
  NoDup (OrderedDict.keys (_scalers (registry w))) →
  NoDup (OrderedDict.keys (_addons (registry w))) →
  run get_components w = (Ok components, w) →
  OrderedDict.keys components =
  (OrderedDict.keys (_scalers (registry w))
   ++ filter (λ k, k ∉ OrderedDict.keys (_scalers (registry w)))
        (OrderedDict.keys (_addons (registry w))))%list.
Proof.
  intros Hscalers Haddons [= <-].
  by rewrite keys_update, keys_update_empty.
Qed.

(** ** The preference scan, read backwards *)

Lemma eligible_or_not av include exclude x :
  eligible av include exclude x ∨ ¬ eligible av include exclude x.
Proof.
  unfold eligible.
  destruct (decide (x ∈ OrderedDict.keys av)) as [Hav|Hav];
    [|right; by intros (? & _)].
  assert ((∀ inc, include = Some inc → x ∈ inc) ∨
          ¬ (∀ inc, include = Some inc → x ∈ inc)) as [Hinc|Hinc].
  { destruct include as [inc|]; [|left; by intros ? [=]].
    destruct (decide (x ∈ inc)) as [Hx|Hx].
    - left. by intros ? [= <-].
    - right. intros Hall. by specialize (Hall _ eq_refl). }
  2: { right. by intros (_ & ? & _). }
  assert ((∀ exc, exclude = Some exc → x ∉ exc) ∨
          ¬ (∀ exc, exclude = Some exc → x ∉ exc)) as [Hexc|Hexc].
  { destruct exclude as [exc|]; [|left; by intros ? [=]].
    destruct (decide (x ∈ exc)) as [Hx|Hx].
    - right. intros Hall. by apply (Hall _ eq_refl).
    - left. by intros ? [= <-]. }
  - by left.
  - right. by intros (_ & _ & ?).
Qed.

Lemma scan_defaults_cons av include exclude x rest :
  (eligible av include exclude x ∧
   scan_defaults (x :: rest) av include exclude = Some x) ∨
  (¬ eligible av include exclude x ∧
   scan_defaults (x :: rest) av include exclude =
   scan_defaults rest av include exclude).
Proof.
  destruct (eligible_or_not av include exclude x) as [Hx|Hx].
  - left. split; [done|]. by apply scan_defaults_eligible.
  - right. split; [done|]. by apply scan_defaults_not_eligible.
Qed.

Lemma scan_defaults_inv candidates av include exclude :
  match scan_defaults candidates av include exclude with
  | Some d =>
      ∃ before after,
        candidates = (before ++ d :: after)%list ∧
        eligible av include exclude d ∧
        ∀ x, x ∈ before → ¬ eligible av include exclude x
  | None => ∀ x, x ∈ candidates → ¬ eligible av include exclude x
  end.
Proof.
  induction candidates as [|x rest IH].
  - cbn. intros x Hx. by apply elem_of_nil in Hx.
  - destruct (scan_defaults_cons av include exclude x rest) as [[Hx ->]|[Hx ->]].
    + exists [], rest. split; [done|]. split; [done|].
      intros y Hy. by apply elem_of_nil in Hy.
    + destruct (scan_defaults rest av include exclude) as [d|].
      * destruct IH as (before & after & -> & Hd & Hbefore).
        exists (x :: before), after. split; [done|]. split; [done|].
        intros y [->|Hy]%elem_of_cons; [done|by apply Hbefore].
      * intros y [->|Hy]%elem_of_cons; [done|by apply IH].
Qed.

(** X4: with no explicit default, whatever lines 68-85 resolve is a name of
    the fixed preference list that is available, is in the include list when
    one is given and is not in the exclude list when one is given, and no
    earlier name of the list has these properties; nothing is resolved
    exactly when no name of the list has them. *)
Theorem resolved_default_is_first_eligible_or_nothing av include exclude :
  match resolve_default None av include exclude with
  | Some d =>
      ∃ before after,
        defaults = (before ++ d :: after)%list ∧
        eligible av include exclude d ∧
        ∀ x, x ∈ before → ¬ eligible av include exclude x
  | None => ∀ x, x ∈ defaults → ¬ eligible av include exclude x
  end.
Proof. apply scan_defaults_inv. Qed.

(** ** Further properties of [get_hyperparameter_search_space] *)

Section Further.
Context `{autoPyTorchChoice}.

Lemma graft_children s names pre av props cs cs' :
  graft s names pre av props cs = Ok cs' →
  ∃ grafts,
    children cs' = (children cs ++ grafts)%list ∧
    Forall2 (child_built_for s av props pre) names grafts.
Proof.
  revert cs. induction names as [|name rest IH]; intros cs; cbn [graft].
  - intros [= <-]. exists []. split; [by rewrite app_nil_r|constructor].
  - unfold od_getitem. destruct (OrderedDict.get av name) as [c|] eqn:Hget; [|done].
    destruct (component_search_space c props _) as [sub|e] eqn:Hsub; [|done].
    intros Hrest. apply IH in Hrest as (grafts & Hchildren & Hall).
    exists ((name, sub, (pre, name)) :: grafts). split.
    + rewrite Hchildren. cbn. by rewrite <- app_assoc.
    + constructor; [|done]. by exists c.
Qed.

Lemma graft_same_updates s1 s2 names pre av props cs :
  (∀ prefix, _get_search_space_updates s1 prefix = _get_search_space_updates s2 prefix) →
  graft s1 names pre av props cs = graft s2 names pre av props cs.
Proof.
  intros Hsame. revert cs. induction names as [|name rest IH]; intros cs; [done|].
  cbn [graft]. destruct (od_getitem av name) as [c|e]; [|done].
  rewrite Hsame. destruct (component_search_space c props _) as [sub|e]; [|done].
  apply IH.
Qed.

(** A call returns as soon as its choice parameter is built, every choice
    is an available scaler and every available scaler builds its sub-space. *)
Lemma outcome_returns w dp default include exclude av v pre :
  available w dp include exclude = Ok av →
  av ≠ [] →
  effective_properties w dp !! "numerical_columns" = Some v →
  choice_parameter av (list_or_empty v) (choice_update w)
    (resolve_default default av include exclude) include = Ok pre →
  hp_name pre = "__choice__" →
  hp_choices pre ⊆ OrderedDict.keys av →
  (∀ name c, OrderedDict.get av name = Some c →
             ∃ sub, component_search_space c (effective_properties w dp)
                      (_get_search_space_updates (self w) (Some name)) = Ok sub) →
  ∃ cs,
    outcome w dp default include exclude
    = (Ok cs, cached w cs (effective_properties w dp)) ∧
    get_hyperparameter cs "__choice__" = Some pre.
Proof.
  intros Hav Hne Hv Hpre Hname Hchoices Hsubs.
  destruct (graft_total (self w) (hp_choices pre) pre av (effective_properties w dp)
              (add_hyperparameter empty_space pre)) as [cs Hgraft].
  { intros name Hin. apply Hchoices, keys_get_is_Some in Hin as [c Hc].
    destruct (Hsubs name c Hc) as [sub Hsub]. eauto. }
  exists cs. split; [|by apply (graft_choice (self w) pre av (effective_properties w dp))].
  unfold outcome. rewrite Hav.
  rewrite bool_decide_eq_false_2 by (by destruct av).
  by rewrite Hv, Hpre, Hgraft.
Qed.

(** X5: a call that raises leaves the registry and the instance exactly as
    they were; a call that returns a space changes two attributes of the
    instance and nothing else: [configuration_space] becomes the returned
    space and [dataset_properties] becomes the passed bag laid over the
    properties stored before. *)
Theorem call_effect_on_state w dp default include exclude r w' :
  run (get_hyperparameter_search_space dp default include exclude) w = (r, w') →
  match r with
  | Raise _ => w' = w
  | Ok cs =>
      registry w' = registry w ∧
      Self.search_space_updates (self w') = Self.search_space_updates (self w) ∧
      Self.configuration_space (self w') = Some cs ∧
      Self.dataset_properties (self w')
      = from_option id ∅ dp ∪ Self.dataset_properties (self w)
  end.
Proof.
  rewrite get_hyperparameter_search_space_run. intros Hout. destruct r as [cs|e].
  - by apply outcome_Ok_inv in Hout as (? & ? & ? & _ & _ & _ & _ & _ & ->).
  - by apply outcome_Raise_world in Hout.
Qed.

(** X6: a returned space holds exactly one top-level hyperparameter, the
    '__choice__' categorical, and exactly one graft per choice, in the order
    of the choices: the sub-space the available scaler of that name builds
    from the bag of the call and the updates addressed to that name, under
    the prefix of the name and the condition that '__choice__' equals the
    name. *)
Theorem returned_space_structure w dp default include exclude cs w' :
  run (get_hyperparameter_search_space dp default include exclude) w = (Ok cs, w') →
  ∃ av pre,
    available w dp include exclude = Ok av ∧
    hp_name pre = "__choice__" ∧
    hyperparameters cs = [pre] ∧
    Forall2 (child_built_for (self w) av (effective_properties w dp) pre)
      (hp_choices pre) (children cs).
Proof.
  rewrite get_hyperparameter_search_space_run. intros Hout.
  apply outcome_Ok_inv in Hout as (av & v & pre & Hav & _ & _ & Hpre & Hgraft & _).
  exists av, pre. split; [done|].
  destruct (choice_parameter_Ok _ _ _ _ _ _ Hpre) as (choices & d & -> & _).
  split; [done|]. split.
  - by rewrite (graft_hyperparameters _ _ _ _ _ _ _ Hgraft).
  - by apply graft_children in Hgraft as (grafts & -> & Hall).
Qed.

(** X7: with numerical columns and no update of '__choice__', an explicit
    default that is one of the available scalers is used as it is: the
    choices are all available names in their order, the default is the
    given one (whatever the preference scan, the include list or the exclude
    list say), and the call returns when every available scaler builds its
    sub-space. *)
Theorem explicit_default_is_used w dp d include exclude av v :
  available w dp include exclude = Ok av →
  NoDup (OrderedDict.keys av) →
  effective_properties w dp !! "numerical_columns" = Some v →
  list_or_empty v ≠ [] →
  choice_update w = None →
  d ∈ OrderedDict.keys av →
  (∀ name c, OrderedDict.get av name = Some c →
             ∃ sub, component_search_space c (effective_properties w dp)
                      (_get_search_space_updates (self w) (Some name)) = Ok sub) →
  ∃ cs,
    run (get_hyperparameter_search_space dp (Some d) include exclude) w
    = (Ok cs, cached w cs (effective_properties w dp)) ∧
    get_hyperparameter cs "__choice__"
    = Some (Categorical "__choice__" (OrderedDict.keys av) d).
Proof.
  intros Hav Hnd Hv Hcols Hupd Hd Hsubs.
  rewrite get_hyperparameter_search_space_run.
  eapply outcome_returns; try done.
  - intros ->. by apply elem_of_nil in Hd.
  - rewrite Hupd. cbn [choice_parameter resolve_default].
    rewrite bool_decide_eq_false_2 by (by destruct (list_or_empty v)).
    by apply CategoricalHyperparameter_build.
Qed.

(** X8: with numerical columns and no update of '__choice__', an explicit
    default that is not one of the available scalers makes the call fail
    with the ValueError about the illegal default value, and nothing is
    changed. *)
Theorem explicit_default_not_available_fails w dp d include exclude av v :
  available w dp include exclude = Ok av →
  av ≠ [] →
  NoDup (OrderedDict.keys av) →
  effective_properties w dp !! "numerical_columns" = Some v →
  list_or_empty v ≠ [] →
  choice_update w = None →
  d ∉ OrderedDict.keys av →
  run (get_hyperparameter_search_space dp (Some d) include exclude) w
  = (Raise (ValueError (IllegalDefault d)), w).
Proof.
  intros Hav Hne Hnd Hv Hcols Hupd Hd.
  rewrite get_hyperparameter_search_space_run. unfold outcome.
  rewrite Hav, Hv, Hupd. rewrite bool_decide_eq_false_2 by (by destruct av).
  cbn [choice_parameter resolve_default].
  rewrite bool_decide_eq_false_2 by (by destruct (list_or_empty v)).
  rewrite CategoricalHyperparameter_default_outside by done.
  apply first_repeated_NoDup in Hnd. by rewrite Hnd.
Qed.

(** X9: the [default] argument only matters with numerical columns and
    without an update of '__choice__': when an update is registered, or when
    the value under 'numerical_columns' is an empty list or not a list, two
    calls that differ in [default] alone have the same result and the same
    effect. *)
Theorem default_argument_unused w dp d1 d2 include exclude :
  is_Some (choice_update w) ∨
  (∀ v, effective_properties w dp !! "numerical_columns" = Some v →
        list_or_empty v = []) →
  run (get_hyperparameter_search_space dp d1 include exclude) w =
  run (get_hyperparameter_search_space dp d2 include exclude) w.
Proof.
  intros Hcase. rewrite !get_hyperparameter_search_space_run. unfold outcome.
  destruct (available w dp include exclude) as [av|e]; [|done].
  case_bool_decide; [done|].
  destruct (effective_properties w dp !! "numerical_columns") as [v|] eqn:Hv; [|done].
  assert (choice_parameter av (list_or_empty v) (choice_update w)
            (resolve_default d1 av include exclude) include
          = choice_parameter av (list_or_empty v) (choice_update w)
              (resolve_default d2 av include exclude) include) as ->; [|done].
  destruct Hcase as [[ch ->]|Hempty]; [done|].
  rewrite (Hempty v eq_refl). by destruct (choice_update w).
Qed.

(** X10: an update of '__choice__' that passes the checks is used as it is:
    the choices of the returned space are the value range of the update
    and its default is the default of the update, whatever [default] and the
    preference scan say; the call returns when every available scaler
    builds its sub-space. *)
Theorem update_is_used_as_given w dp default include exclude av v ch :
  available w dp include exclude = Ok av →
  effective_properties w dp !! "numerical_columns" = Some v →
  choice_update w = Some ch →
  value_range ch ⊆ OrderedDict.keys av →
  NoDup (value_range ch) →
  default_value ch ∈ value_range ch →
  (list_or_empty v = [] → value_range ch = ["NoScaler"]) →
  (∀ name c, OrderedDict.get av name = Some c →
             ∃ sub, component_search_space c (effective_properties w dp)
                      (_get_search_space_updates (self w) (Some name)) = Ok sub) →
  ∃ cs,
    run (get_hyperparameter_search_space dp default include exclude) w
    = (Ok cs, cached w cs (effective_properties w dp)) ∧
    get_hyperparameter cs "__choice__"
    = Some (Categorical "__choice__" (value_range ch) (default_value ch)).
Proof.
  intros Hav Hv Hupd Hsub Hnd Hdefault Hcollapse Hsubs.
  rewrite get_hyperparameter_search_space_run.
  eapply outcome_returns; try done.
  - intros ->. apply Hsub in Hdefault. by apply elem_of_nil in Hdefault.
  - rewrite Hupd. cbn [choice_parameter].
    apply subset_forallb in Hsub. rewrite Hsub. cbn [negb].
    assert (bool_decide (length (list_or_empty v) = 0)
            && negb (bool_decide (length (value_range ch) = 1)) = false) as ->.
    { case_bool_decide as Hlen; [|done].
      rewrite Hcollapse by (by destruct (list_or_empty v)). done. }
    assert (bool_decide (length (list_or_empty v) = 0)
            && negb (bool_decide ("NoScaler" ∈ value_range ch)) = false) as ->.
    { case_bool_decide as Hlen; [|done].
      rewrite Hcollapse by (by destruct (list_or_empty v)).
      rewrite bool_decide_eq_true_2; [done|]. apply list_elem_of_here. }
    by apply CategoricalHyperparameter_build.
Qed.

(** X11: without numerical columns and without an update of '__choice__',
    the choice is 'NoScaler' even when 'NoScaler' is not among the available
    scalers (for instance because it is excluded): the loop of lines
    123-129 then fails with KeyError('NoScaler') and nothing is changed. *)
Theorem NoScaler_not_available_is_KeyError w dp default include exclude av v :
  available w dp include exclude = Ok av →
  av ≠ [] →
  effective_properties w dp !! "numerical_columns" = Some v →
  list_or_empty v = [] →
  choice_update w = None →
  (∀ inc, include = Some inc → "NoScaler" ∈ inc) →
  "NoScaler" ∉ OrderedDict.keys av →
  run (get_hyperparameter_search_space dp default include exclude) w
  = (Raise (KeyError "NoScaler"), w).
Proof.
  intros Hav Hne Hv Hempty Hupd Hinc Hmissing.
  rewrite get_hyperparameter_search_space_run. unfold outcome.
  rewrite Hav, Hv, Hempty, Hupd. rewrite bool_decide_eq_false_2 by (by destruct av).
  cbn [choice_parameter length]. rewrite bool_decide_eq_true_2 by done.
  assert (match include with
          | Some inc =>
              if bool_decide ("NoScaler" ∈ inc)
              then CategoricalHyperparameter "__choice__" ["NoScaler"] (Some "NoScaler")
              else Raise (ValueError (IncludeIncompatible inc))
          | None => CategoricalHyperparameter "__choice__" ["NoScaler"] (Some "NoScaler")
          end = Ok NoScaler_only) as ->.
  { destruct include as [inc|]; [|by vm_compute].
    rewrite bool_decide_eq_true_2 by (by apply Hinc). by vm_compute. }
  cbn [hp_choices NoScaler_only graft]. unfold od_getitem.
  by rewrite get_not_key.
Qed.

(** X12: when no scaler is available the call fails with the ValueError
    'no scalers found' before the bag, the updates or the default are looked
    at, and nothing is changed. *)
Theorem no_available_scaler_fails w dp default include exclude :
  available w dp include exclude = Ok [] →
  run (get_hyperparameter_search_space dp default include exclude) w
  = (Raise (ValueError NoScalersFound), w).
Proof.
  intros Hav. rewrite get_hyperparameter_search_space_run. unfold outcome.
  by rewrite Hav.
Qed.

(** X13: [_check_dataset_properties] never changes the registry or the
    instance, and it accepts a bag exactly when the check of the parent
    class accepts it and both 'numerical_columns' and 'categorical_columns'
    are keys of the bag, whatever values they hold. *)
Theorem check_dataset_properties_accepts_iff (bag : gmap string PyValue) w :
  (run (_check_dataset_properties bag) w).2 = w ∧
  ((run (_check_dataset_properties bag) w).1 = Ok tt ↔
   super_check_dataset_properties bag = Ok tt ∧
   is_Some (bag !! "numerical_columns") ∧
   is_Some (bag !! "categorical_columns")).
Proof.
  unfold _check_dataset_properties, run, mbind, M_bind, lift, raise, mret, M_ret.
  destruct (super_check_dataset_properties bag) as [[]|e].
  - destruct (decide (is_Some (bag !! "numerical_columns"))) as [Hn|Hn],
             (decide (is_Some (bag !! "categorical_columns"))) as [Hc|Hc].
    + rewrite !bool_decide_eq_true_2 by done. by cbn.
    + rewrite (bool_decide_eq_false_2 _ Hc), andb_false_r. cbn.
      split; [done|]. split; [done|]. by intros (_ & _ & ?).
    + rewrite (bool_decide_eq_false_2 _ Hn). cbn.
      split; [done|]. split; [done|]. by intros (_ & ? & _).
    + rewrite (bool_decide_eq_false_2 _ Hn). cbn.
      split; [done|]. split; [done|]. by intros (_ & ? & _).
  - cbn. split; [done|]. split; [done|]. by intros (? & _).
Qed.

(** X14: calling again after a call that returned a space, with the same
    arguments or without a bag, returns the same space and changes nothing
    further, provided the updates the parent class reports are the same
    after the first call as before it. *)
Theorem second_call_returns_same_space w dp default include exclude cs w' :
  run (get_hyperparameter_search_space dp default include exclude) w = (Ok cs, w') →
  (∀ prefix, _get_search_space_updates (self w') prefix
             = _get_search_space_updates (self w) prefix) →
  run (get_hyperparameter_search_space dp default include exclude) w' = (Ok cs, w') ∧
  run (get_hyperparameter_search_space None default include exclude) w' = (Ok cs, w').
Proof.
  rewrite !get_hyperparameter_search_space_run. intros Hout Hupdates.
  apply outcome_Ok_inv in Hout as Hinv.
  destruct Hinv as (av & v & pre & Hav & Hne & Hv & Hpre & Hgraft & ->).
  assert (∀ dp',
            effective_properties (cached w cs (effective_properties w dp)) dp'
            = effective_properties w dp →
            outcome (cached w cs (effective_properties w dp)) dp' default include exclude
            = (Ok cs, cached w cs (effective_properties w dp))) as Hagain.
  { intros dp' Hprops. unfold outcome, available, choice_update.
    rewrite Hprops, Hupdates. cbn [cached registry].
    change (get_available_components (components_of (registry w))
              (effective_properties w dp) include exclude)
      with (available w dp include exclude).
    rewrite Hav. rewrite bool_decide_eq_false_2 by (by destruct av).
    fold (choice_update w). rewrite Hv, Hpre.
    rewrite (graft_same_updates _ (self w)) by done.
    by rewrite Hgraft. }
  split; apply Hagain; unfold effective_properties; cbn.
  - by rewrite (assoc_L (∪)), (idemp_L (∪)).
  - by rewrite (left_id_L ∅ (∪)).
Qed.

(** X15: the properties stored on the instance only grow: every key stored
    before a call is still stored after it, whether the call returns or
    raises, and after a call that returns, every entry of the passed bag is
    stored with the passed value. *)
Theorem stored_properties_grow w dp default include exclude r w' :
  run (get_hyperparameter_search_space dp default include exclude) w = (r, w') →
  (∀ k, is_Some (Self.dataset_properties (self w) !! k) →
        is_Some (Self.dataset_properties (self w') !! k)) ∧
  (∀ cs bag k v, r = Ok cs → dp = Some bag → bag !! k = Some v →
                 Self.dataset_properties (self w') !! k = Some v).
Proof.
  rewrite get_hyperparameter_search_space_run. intros Hout. destruct r as [cs|e].
  - apply outcome_Ok_inv in Hout as (? & ? & ? & _ & _ & _ & _ & _ & ->). cbn. split.
    + intros k [old Hk]. unfold effective_properties.
      destruct (from_option id ∅ dp !! k) as [new|] eqn:Hdp.
      * exists new. by apply lookup_union_Some_l.
      * exists old. by rewrite lookup_union_r.
    + intros cs' bag k v _ -> Hk. by apply effective_properties_argument.
  - apply outcome_Raise_world in Hout as ->. split; [done|]. by intros.
Qed.

(** With numerical columns and no update of the choice, the call returns
    the space over all available names once the default it works with, if
    any, is one of them and every available scaler builds its sub-space. *)
Lemma numerical_returns w dp default include exclude av v :
  available w dp include exclude = Ok av →
  av ≠ [] →
  NoDup (OrderedDict.keys av) →
  effective_properties w dp !! "numerical_columns" = Some v →
  list_or_empty v ≠ [] →
  choice_update w = None →
  (∀ d, default = Some d → d ∈ OrderedDict.keys av) →
  (∀ name c, OrderedDict.get av name = Some c →
             ∃ sub, component_search_space c (effective_properties w dp)
                      (_get_search_space_updates (self w) (Some name)) = Ok sub) →
  ∃ cs d,
    outcome w dp default include exclude
    = (Ok cs, cached w cs (effective_properties w dp)) ∧
    get_hyperparameter cs "__choice__"
    = Some (Categorical "__choice__" (OrderedDict.keys av) d) ∧
    match resolve_default default av include exclude with
    | Some x => d = x
    | None => head (OrderedDict.keys av) = Some d
    end.
Proof.
  intros Hav Hne Hnd Hv Hcols Hupd Hdefault Hsubs.
  assert (∃ d, CategoricalHyperparameter "__choice__" (OrderedDict.keys av)
                 (resolve_default default av include exclude)
               = Ok (Categorical "__choice__" (OrderedDict.keys av) d) ∧
               match resolve_default default av include exclude with
               | Some x => d = x
               | None => head (OrderedDict.keys av) = Some d
               end) as (d & Hbuilt & Hd).
  { destruct (resolve_default default av include exclude) as [x|] eqn:Hres.
    - exists x. split; [|done]. apply CategoricalHyperparameter_build; [done|].
      destruct default as [d'|]; cbn [resolve_default] in Hres.
      + injection Hres as <-. by apply Hdefault.
      + pose proof (scan_defaults_inv defaults av include exclude) as Hscan.
        rewrite Hres in Hscan. by destruct Hscan as (_ & _ & _ & (? & _) & _).
    - destruct av as [|[k c] av'] eqn:Heq; [done|]. rewrite <- Heq in *.
      exists k. split; [|by rewrite Heq].
      unfold CategoricalHyperparameter.
      apply first_repeated_NoDup in Hnd. rewrite Hnd. by rewrite Heq. }
  destruct (outcome_returns w dp default include exclude av v
              (Categorical "__choice__" (OrderedDict.keys av) d))
    as (cs & Hout & Hchoice); try done.
  - rewrite Hupd. cbn [choice_parameter].
    by rewrite bool_decide_eq_false_2 by (by destruct (list_or_empty v)).
  - by exists cs, d.
Qed.

(** C9: with no explicit default, the default resolved by lines 68-85 is
    the first name of the fixed preference order that is available, is in
    the include list when one is given and is not in the exclude list when
    one is given.  A call with numerical columns and no update of
    '__choice__' returns the space whose '__choice__' categorical has that
    name as its default, once every available scaler builds its sub-space;
    and every space such a call returns has that default. *)
Theorem default_is_first_eligible_preference
    av include exclude before d after :
  defaults = (before ++ d :: after)%list →
  eligible av include exclude d →
  (∀ x, x ∈ before → ¬ eligible av include exclude x) →
  resolve_default None av include exclude = Some d ∧
  (∀ w dp v,
     available w dp include exclude = Ok av →
     NoDup (OrderedDict.keys av) →
     effective_properties w dp !! "numerical_columns" = Some v →
     list_or_empty v ≠ [] →
     choice_update w = None →
     (∀ name c, OrderedDict.get av name = Some c →
                ∃ sub, component_search_space c (effective_properties w dp)
                         (_get_search_space_updates (self w) (Some name)) = Ok sub) →
     ∃ cs,
       run (get_hyperparameter_search_space dp None include exclude) w
       = (Ok cs, cached w cs (effective_properties w dp)) ∧
       get_hyperparameter cs "__choice__"
       = Some (Categorical "__choice__" (OrderedDict.keys av) d)) ∧
  (∀ w dp v cs w',
     available w dp include exclude = Ok av →
     effective_properties w dp !! "numerical_columns" = Some v →
     list_or_empty v ≠ [] →
     choice_update w = None →
     run (get_hyperparameter_search_space dp None include exclude) w = (Ok cs, w') →
     get_hyperparameter cs "__choice__"
     = Some (Categorical "__choice__" (OrderedDict.keys av) d)).
Proof.
  intros Hsplit Hd Hbefore.
  assert (resolve_default None av include exclude = Some d) as Hres.
  { cbn [resolve_default]. rewrite Hsplit. by apply scan_defaults_first. }
  split; [done|]. split.
  - intros w dp v Hav Hnd Hv Hcols Hupd Hsubs.
    rewrite get_hyperparameter_search_space_run.
    destruct (numerical_returns w dp None include exclude av v)
      as (cs & d' & Hout & Hchoice & Hd'); try done.
    { intros ->. destruct Hd as [Hin _]. by apply elem_of_nil in Hin. }
    rewrite Hres in Hd'. subst d'. by exists cs.
  - intros w dp v cs w' Hav Hv Hcols Hupd.
    rewrite get_hyperparameter_search_space_run. intros Hout.
    destruct (numerical_choice _ _ _ _ _ _ _ _ _ Hav Hv Hcols Hupd Hout)
      as (d' & Hget & Hd').
    rewrite Hres in Hd'. by subst.
Qed.

(** C7 (as amended): [_check_dataset_properties] fails with an
    AssertionError, changing nothing, for every bag that misses
    'numerical_columns' or 'categorical_columns', once the check of the
    parent class has passed.  [get_hyperparameter_search_space] does not
    run this check on the bag passed to it: it lays that bag over the
    properties stored on the instance, so the call has the same result and
    effect as with the bag completed by the stored properties, and when the
    completed bag holds numerical columns (and no update of '__choice__' is
    registered, an explicit default, if any, is available and every
    available scaler builds its sub-space) the call returns a space over
    all available scalers instead of failing. *)
Theorem check_dataset_properties_missing_key
    (bag : gmap string PyValue) w default include exclude :
  super_check_dataset_properties bag = Ok tt →
  bag !! "numerical_columns" = None ∨ bag !! "categorical_columns" = None →
  run (_check_dataset_properties bag) w =
  (Raise (AssertionError
     (Some "Dataset properties must contain information about the type of columns")), w)
  ∧
  run (get_hyperparameter_search_space (Some bag) default include exclude) w =
  run (get_hyperparameter_search_space
         (Some (bag ∪ Self.dataset_properties (self w))) default include exclude) w
  ∧
  (∀ av v,
     available w (Some bag) include exclude = Ok av →
     av ≠ [] →
     NoDup (OrderedDict.keys av) →
     (bag ∪ Self.dataset_properties (self w)) !! "numerical_columns" = Some v →
     list_or_empty v ≠ [] →
     choice_update w = None →
     (∀ d, default = Some d → d ∈ OrderedDict.keys av) →
     (∀ name c, OrderedDict.get av name = Some c →
                ∃ sub, component_search_space c (bag ∪ Self.dataset_properties (self w))
                         (_get_search_space_updates (self w) (Some name)) = Ok sub) →
     ∃ cs d,
       run (get_hyperparameter_search_space (Some bag) default include exclude) w
       = (Ok cs, cached w cs (bag ∪ Self.dataset_properties (self w))) ∧
       get_hyperparameter cs "__choice__"
       = Some (Categorical "__choice__" (OrderedDict.keys av) d)).
Proof.
  intros Hsuper Hmissing. split; [|split].
  - unfold _check_dataset_properties, run, mbind, M_bind, lift, raise.
    rewrite Hsuper.
    destruct Hmissing as [-> | ->].
    + by rewrite (bool_decide_eq_false_2 (is_Some None)) by (by intros [? ?]).
    + rewrite (bool_decide_eq_false_2 (is_Some None)) by (by intros [? ?]).
      by rewrite andb_false_r.
  - rewrite !get_hyperparameter_search_space_run.
    assert (effective_properties w (Some (bag ∪ Self.dataset_properties (self w)))
            = effective_properties w (Some bag)) as Hsame.
    { unfold effective_properties. cbn.
      by rewrite <- (assoc_L (∪)), (idemp_L (∪)). }
    unfold outcome, available. by rewrite Hsame.
  - intros av v Hav Hne Hnd Hv Hcols Hupd Hdefault Hsubs.
    rewrite get_hyperparameter_search_space_run.
    destruct (numerical_returns w (Some bag) default include exclude av v)
      as (cs & d & Hout & Hchoice & _); try done.
    by exists cs, d.
Qed.

End Further.

(** ** The further properties on concrete calls *)

(** The addon registered as 'NoScaler' replaces the built-in one. *)
Lemma get_components_addon_overrides_witness :
  OrderedDict.get
    [("StandardScaler", plain_scaler); ("NoScaler", tuned_scaler); ("MyScaler", plain_scaler)]
    "NoScaler" = Some tuned_scaler.
Proof.
  rewrite (get_components_addon_overrides (world overriding_addons fresh_self)
             [("StandardScaler", plain_scaler); ("NoScaler", tuned_scaler);
              ("MyScaler", plain_scaler)] "NoScaler").
  - reflexivity.
  - decided.
  - decided.
  - by_computation.
Defined.

(** The overridden 'NoScaler' keeps the second place, 'MyScaler' comes last. *)
Lemma get_components_order_witness :
  OrderedDict.keys
    [("StandardScaler", plain_scaler); ("NoScaler", tuned_scaler); ("MyScaler", plain_scaler)]
  = ["StandardScaler"; "NoScaler"; "MyScaler"].
Proof.
  rewrite (get_components_order (world overriding_addons fresh_self)
             [("StandardScaler", plain_scaler); ("NoScaler", tuned_scaler);
              ("MyScaler", plain_scaler)]).
  - by_computation.
  - decided.
  - decided.
  - by_computation.
Defined.

(** Scenario 1 caches the space and the bag. *)
Lemma call_effect_on_state_witness :
  let w' := world standard_and_no_scaler (self_after numerical_bag scenario1_space) in
  registry w' = standard_and_no_scaler ∧
  Self.search_space_updates (self w') = ∅ ∧
  Self.configuration_space (self w') = Some scenario1_space ∧
  Self.dataset_properties (self w') = numerical_bag ∪ ∅.
Proof.
  intros w'.
  apply (@call_effect_on_state spec_choice (world standard_and_no_scaler fresh_self)
           (Some numerical_bag) None None None (Ok scenario1_space) w').
  by_computation.
Defined.

(** One graft per registered scaler, the overriding addon with its own
    parameter. *)
Lemma returned_space_structure_witness :
  ∃ av pre,
    @available spec_choice (world overriding_addons fresh_self)
      (Some numerical_bag) None None = Ok av ∧
    hp_name pre = "__choice__" ∧
    hyperparameters overriding_space = [pre] ∧
    Forall2 (@child_built_for spec_choice fresh_self av
               (effective_properties (world overriding_addons fresh_self)
                  (Some numerical_bag)) pre)
      (hp_choices pre) (children overriding_space).
Proof.
  eapply (@returned_space_structure spec_choice (world overriding_addons fresh_self)
            (Some numerical_bag) None None None overriding_space).
  by_computation.
Defined.

(** 'NoScaler' asked for as the default of a numerical dataset. *)
Lemma explicit_default_is_used_witness :
  let w := world standard_and_no_scaler fresh_self in
  ∃ cs,
    run (call (Some numerical_bag) (Some "NoScaler") None None) w
    = (Ok cs, @cached w cs (effective_properties w (Some numerical_bag))) ∧
    get_hyperparameter cs "__choice__"
    = Some (Categorical "__choice__" ["StandardScaler"; "NoScaler"] "NoScaler").
Proof.
  intros w.
  apply (@explicit_default_is_used spec_choice w (Some numerical_bag) "NoScaler"
           None None [("StandardScaler", plain_scaler); ("NoScaler", plain_scaler)]
           (PyList [PyStr "c1"])).
  - by_computation.
  - decided.
  - by_computation.
  - discriminate.
  - by_computation.
  - decided.
  - intros name c. cbn [OrderedDict.get].
    repeat case_decide; intros [= <-]; by exists empty_space.
Defined.

(** A default nobody registered. *)
Lemma explicit_default_not_available_fails_witness :
  let w := world standard_and_no_scaler fresh_self in
  run (call (Some numerical_bag) (Some "FooScaler") None None) w
  = (Raise (ValueError (IllegalDefault "FooScaler")), w).
Proof.
  intros w.
  apply (@explicit_default_not_available_fails spec_choice w (Some numerical_bag)
           "FooScaler" None None
           [("StandardScaler", plain_scaler); ("NoScaler", plain_scaler)]
           (PyList [PyStr "c1"])).
  - by_computation.
  - discriminate.
  - decided.
  - by_computation.
  - discriminate.
  - by_computation.
  - decided.
Defined.

(** A categorical dataset: the default asked for makes no difference. *)
Lemma default_argument_unused_witness :
  let w := world standard_and_no_scaler fresh_self in
  run (call (Some categorical_bag) (Some "StandardScaler") None None) w
  = run (call (Some categorical_bag) None None None) w.
Proof.
  intros w.
  apply (@default_argument_unused spec_choice w (Some categorical_bag)
           (Some "StandardScaler") None None None).
  right. intros v Hv.
  assert (effective_properties w (Some categorical_bag) !! "numerical_columns"
          = Some (PyList [])) as Hbag by by_computation.
  rewrite Hbag in Hv. by injection Hv as <-.
Defined.

(** An update that narrows a numerical dataset to 'NoScaler'. *)
Lemma update_is_used_as_given_witness :
  let w := world standard_and_no_scaler (self_with_choice_update ["NoScaler"] "NoScaler") in
  ∃ cs,
    run (call (Some numerical_bag) (Some "StandardScaler") None None) w
    = (Ok cs, @cached w cs (effective_properties w (Some numerical_bag))) ∧
    get_hyperparameter cs "__choice__" = Some (Categorical "__choice__" ["NoScaler"] "NoScaler").
Proof.
  intros w.
  apply (@update_is_used_as_given spec_choice w (Some numerical_bag)
           (Some "StandardScaler") None None
           [("StandardScaler", plain_scaler); ("NoScaler", plain_scaler)]
           (PyList [PyStr "c1"])
           {| value_range := ["NoScaler"]; default_value := "NoScaler" |}).
  - by_computation.
  - by_computation.
  - by_computation.
  - intros x ->%list_elem_of_singleton. decided.
  - decided.
  - decided.
  - reflexivity.
  - intros name c. cbn [OrderedDict.get].
    repeat case_decide; intros [= <-]; by exists empty_space.
Defined.

(** 'NoScaler' excluded for a categorical dataset. *)
Lemma NoScaler_not_available_is_KeyError_witness :
  let w := world standard_and_no_scaler fresh_self in
  run (call (Some categorical_bag) None None (Some ["NoScaler"])) w
  = (Raise (KeyError "NoScaler"), w).
Proof.
  intros w.
  apply (@NoScaler_not_available_is_KeyError spec_choice w (Some categorical_bag)
           None None (Some ["NoScaler"]) [("StandardScaler", plain_scaler)] (PyList [])).
  - by_computation.
  - discriminate.
  - by_computation.
  - reflexivity.
  - by_computation.
  - discriminate.
  - decided.
Defined.

(** Every registered scaler excluded (scenario 5). *)
Lemma no_available_scaler_fails_witness :
  let w := world standard_and_no_scaler fresh_self in
  run (call (Some numerical_bag) None None (Some ["StandardScaler"; "NoScaler"])) w
  = (Raise (ValueError NoScalersFound), w).
Proof.
  intros w.
  apply (@no_available_scaler_fails spec_choice w (Some numerical_bag) None None
           (Some ["StandardScaler"; "NoScaler"])).
  by_computation.
Defined.

(** Scenario 1 twice, and once more without a bag. *)
Lemma second_call_returns_same_space_witness :
  let w' := world standard_and_no_scaler (self_after numerical_bag scenario1_space) in
  run (call (Some numerical_bag) None None None) w' = (Ok scenario1_space, w') ∧
  run (call None None None None) w' = (Ok scenario1_space, w').
Proof.
  intros w'.
  apply (@second_call_returns_same_space spec_choice
           (world standard_and_no_scaler fresh_self) (Some numerical_bag)
           None None None scenario1_space w').
  - by_computation.
  - by intros [prefix|].
Defined.

(** A bag with one key laid over a stored bag with two. *)
Lemma stored_properties_grow_witness :
  let w := world standard_and_no_scaler (self_after categorical_bag scenario2_space) in
  let w' := world standard_and_no_scaler
              (self_after (only_numerical_key ∪ categorical_bag) scenario1_space) in
  (∀ k, is_Some (categorical_bag !! k) →
        is_Some ((only_numerical_key ∪ categorical_bag) !! k)) ∧
  (∀ cs bag k v, Ok scenario1_space = Ok cs → Some only_numerical_key = Some bag →
                 bag !! k = Some v →
                 (only_numerical_key ∪ categorical_bag) !! k = Some v).
Proof.
  intros w w'.
  apply (@stored_properties_grow spec_choice w (Some only_numerical_key)
           None None None (Ok scenario1_space) w').
  by_computation.
Defined.

(** Only 'NoScaler' and 'RobustScaler' are included: the scan skips the five
    names before 'RobustScaler', and 'RobustScaler', not the first available
    name, is the default of the returned space. *)
Lemma default_is_first_eligible_preference_witness :
  let w := world builtin_only (self_storing numerical_bag) in
  let av := [("NoScaler", plain_scaler); ("RobustScaler", plain_scaler)] in
  resolve_default None av (Some ["NoScaler"; "RobustScaler"]) None = Some "RobustScaler" ∧
  ∃ cs,
    run (call None None (Some ["NoScaler"; "RobustScaler"]) None) w
    = (Ok cs, @cached w cs (effective_properties w None)) ∧
    get_hyperparameter cs "__choice__"
    = Some (Categorical "__choice__" ["NoScaler"; "RobustScaler"] "RobustScaler").
Proof.
  intros w av.
  destruct (@default_is_first_eligible_preference spec_choice av
              (Some ["NoScaler"; "RobustScaler"]) None
              ["StandardScaler"; "Normalizer"; "MinMaxScaler"; "PowerTransformer";
               "QuantileTransformer"]
              "RobustScaler" ["NoScaler"])
    as (Hdefault & Hreturns & _).
  - reflexivity.
  - split; [decided|]. split; [|discriminate]. intros inc [= <-]. decided.
  - assert (Forall (λ x, x ∉ OrderedDict.keys av)
              ["StandardScaler"; "Normalizer"; "MinMaxScaler"; "PowerTransformer";
               "QuantileTransformer"]) as Hskipped by decided.
    intros x Hx [Hin _]. by apply (proj1 (Forall_forall _ _) Hskipped x).
  - split; [exact Hdefault|].
    apply (Hreturns w None (PyList [PyStr "c1"])).
    + by_computation.
    + decided.
    + by_computation.
    + discriminate.
    + by_computation.
    + intros name c. cbn [OrderedDict.get av].
      repeat case_decide; intros [= <-]; by exists empty_space.
Defined.

(** An instance that stores a numerical bag is called with a bag that has
    no 'numerical_columns'. *)
Lemma check_dataset_properties_missing_key_witness :
  let w := world builtin_only (self_storing numerical_bag) in
  run (@_check_dataset_properties spec_choice only_categorical_key) w
  = (Raise (AssertionError
       (Some "Dataset properties must contain information about the type of columns")), w)
  ∧ run (call (Some only_categorical_key) None None None) w
    = run (call (Some (only_categorical_key ∪ numerical_bag)) None None None) w
  ∧ ∃ cs d,
      run (call (Some only_categorical_key) None None None) w
      = (Ok cs, @cached w cs (only_categorical_key ∪ numerical_bag)) ∧
      get_hyperparameter cs "__choice__"
      = Some (Categorical "__choice__" (OrderedDict.keys (_scalers builtin_only)) d).
Proof.
  intros w.
  destruct (@check_dataset_properties_missing_key spec_choice only_categorical_key w
              None None None) as (Hcheck & Hsame & Hreturns).
  - reflexivity.
  - left. by_computation.
  - split; [exact Hcheck|]. split; [exact Hsame|].
    apply (Hreturns (_scalers builtin_only) (PyList [PyStr "c1"])).
    + by_computation.
    + discriminate.
    + decided.
    + by_computation.
    + discriminate.
    + by_computation.
    + discriminate.
    + intros name c. cbn [OrderedDict.get _scalers builtin_only].
      repeat case_decide; intros [= <-]; by exists empty_space.
Defined.

(** The stored bag passes the check, as at construction.  A call that is
    passed a bag without 'numerical_columns', or one without
    'categorical_columns', runs the applicability filter and returns the
    space over the seven built-in scalers: nothing fails. *)
Lemma passed_bag_missing_key_returns_space :
  let w := world builtin_only (self_storing numerical_bag) in
  (run (@_check_dataset_properties spec_choice numerical_bag) w).1 = Ok tt ∧
  only_categorical_key !! "numerical_columns" = None ∧
  (run (call (Some only_categorical_key) None None None) w).1 = Ok builtin_space ∧
  only_numerical_key !! "categorical_columns" = None ∧
  (run (call (Some only_numerical_key) None None None) w).1 = Ok builtin_space.
Proof. intros w. repeat split; by_computation. Qed.
